(** * Zeptor: the XDP route filter and the TC HTTP cache probe

    A shallow embedding of [src/bpf/xdp_router.c] and [src/bpf/tc_cache.c].

    Both programs walk a packet buffer that is delimited by the two
    pointers [data] and [data_end] of their context argument.  The buffer
    is a list of bytes; a pointer into it is its offset from [data], so
    [data] is [0] and [data_end] is the length of the list.  A dereference
    outside the buffer is a fault of the model ([None]); every pointer
    comparison against [data_end], every dereference of packet memory and
    every helper call is recorded in a trace, in program order.

    The headers the programs include ([vmlinux.h], [bpf_helpers.h],
    [bpf_endian.h]) are not among the sources; the struct layouts, the
    verdict codes and the helpers taken from them are marked as such
    below.  The maps are the kernel's: a lookup is answered by the current
    contents of the map, which the programs never write, except for the
    counters of [stats]. *)

From Stdlib Require Import ZArith List Bool Lia.
From Stdlib Require Import Strings.Byte.
Import ListNotations.
Open Scope Z_scope.

(** ** Machine integers *)

Definition u64 (x : Z) : Z := x mod 2 ^ 64.

(** The eBPF target inherits the byte order of the host it is compiled
    for; the sources do not fix it. *)
Inductive byte_order : Type := LittleEndian | BigEndian.

(** [bpf_endian.h]: [___bpf_swab16]. *)
Definition bswap16 (x : Z) : Z :=
  Z.lor (Z.shiftl (Z.land x 255) 8) (Z.shiftr (Z.land x 65280) 8).

(** [bpf_endian.h]: [bpf_htons] and [bpf_ntohs] swap on a little-endian
    target and are the identity on a big-endian one. *)
Definition bpf_htons (bo : byte_order) (x : Z) : Z :=
  match bo with LittleEndian => bswap16 x | BigEndian => x end.

Definition bpf_ntohs (bo : byte_order) (x : Z) : Z :=
  match bo with LittleEndian => bswap16 x | BigEndian => x end.

(** ** Packet memory *)

Definition packet : Type := list byte.

Definition pkt_data (pkt : packet) : Z := 0.
Definition pkt_data_end (pkt : packet) : Z := Z.of_nat (length pkt).

Definition byte_val (b : byte) : Z := Z.of_N (Byte.to_N b).

(** The byte stored at offset [p]; [0] outside the buffer, where the
    programs never look (see [deref]). *)
Definition byte_at (pkt : packet) (p : Z) : Z :=
  byte_val (nth (Z.to_nat p) pkt x00).

(** A 16-bit and a 32-bit field as the target loads them. *)
Definition read16 (bo : byte_order) (pkt : packet) (p : Z) : Z :=
  match bo with
  | LittleEndian => byte_at pkt p + 256 * byte_at pkt (p + 1)
  | BigEndian => 256 * byte_at pkt p + byte_at pkt (p + 1)
  end.

Definition read32 (bo : byte_order) (pkt : packet) (p : Z) : Z :=
  match bo with
  | LittleEndian =>
      byte_at pkt p + 256 * byte_at pkt (p + 1)
      + 65536 * byte_at pkt (p + 2) + 16777216 * byte_at pkt (p + 3)
  | BigEndian =>
      16777216 * byte_at pkt p + 65536 * byte_at pkt (p + 1)
      + 256 * byte_at pkt (p + 2) + byte_at pkt (p + 3)
  end.

(** ** Header layouts and verdict codes

    Modelled from the spec: [vmlinux.h], which declares [struct ethhdr],
    [struct iphdr], [struct tcphdr], [IPPROTO_TCP] and the verdict codes,
    is not among the sources.  The spec (section 4.1) names the fields the
    programs use; their sizes and offsets are those of the Ethernet, IPv4
    and TCP wire formats, which the kernel structs follow. *)

Definition sizeof_ethhdr : Z := 14.
Definition ethhdr_h_proto : Z := 12.

Definition sizeof_iphdr : Z := 20.
Definition iphdr_protocol : Z := 9.
Definition iphdr_daddr : Z := 16.
(** [ihl] and [version] are the two 4-bit fields of the first byte. *)
Definition ihl_of (b : Z) : Z := Z.land b 15.
Definition version_of (b : Z) : Z := Z.shiftr b 4.

Definition sizeof_tcphdr : Z := 20.
Definition tcphdr_dest : Z := 2.
(** [doff] is the upper 4-bit field of byte 12 of the TCP header. *)
Definition tcphdr_doff_byte : Z := 12.
Definition doff_of (b : Z) : Z := Z.shiftr b 4.

Definition IPPROTO_TCP : Z := 6.

Inductive xdp_action : Type :=
  XDP_ABORTED | XDP_DROP | XDP_PASS | XDP_TX | XDP_REDIRECT.

Inductive tc_action : Type := TC_ACT_OK | TC_ACT_SHOT.

(** ** Data model of [xdp_router.c] *)

Definition ETH_P_IP : Z := 2048.

Record route_key : Type := {
  prefix_len : Z;
  dest_ip : Z;
  dest_port : Z;
  protocol : Z
}.

(** The trailing [padding[5]] holds no data and is left out. *)
Record route_value : Type := {
  action : Z;
  backend_ip : Z;
  backend_port : Z
}.

Record stats_value : Type := {
  packets_total : Z;
  packets_passed : Z;
  packets_dropped : Z;
  cache_hits : Z
}.

Inductive stats_field : Type :=
  F_packets_total | F_packets_passed | F_packets_dropped | F_cache_hits.

(** [stats_val->f++] on a 64-bit field. *)
Definition bump (f : stats_field) (s : stats_value) : stats_value :=
  match f with
  | F_packets_total =>
      {| packets_total := u64 (packets_total s + 1);
         packets_passed := packets_passed s;
         packets_dropped := packets_dropped s;
         cache_hits := cache_hits s |}
  | F_packets_passed =>
      {| packets_total := packets_total s;
         packets_passed := u64 (packets_passed s + 1);
         packets_dropped := packets_dropped s;
         cache_hits := cache_hits s |}
  | F_packets_dropped =>
      {| packets_total := packets_total s;
         packets_passed := packets_passed s;
         packets_dropped := u64 (packets_dropped s + 1);
         cache_hits := cache_hits s |}
  | F_cache_hits =>
      {| packets_total := packets_total s;
         packets_passed := packets_passed s;
         packets_dropped := packets_dropped s;
         cache_hits := u64 (cache_hits s + 1) |}
  end.

(** ** Data model of [tc_cache.c] *)

Definition HTTP_GET : Z := 0x47455420.
Definition HTTP_POST : Z := 0x504f5354.
Definition MAX_URL_LEN : nat := 192.
Definition MAX_RESP_LEN : Z := 3072.
Definition CACHE_TTL_NS : Z := 60000000000.

Record cache_key : Type := {
  hash : Z;
  method : Z;
  port : Z;
  padding : Z
}.

Record cache_value : Type := {
  timestamp : Z;
  status : Z;
  content_len : Z;
  content_type : Z;
  body : list byte
}.

Definition FNV_OFFSET : Z := 0xcbf29ce484222325.
Definition FNV_PRIME : Z := 0x100000001b3.

(** ** Traces *)

Inductive event : Type :=
| EvGtEnd (q : Z) (past : bool)
    (** [q > data_end] was evaluated, with that outcome *)
| EvGeEnd (q : Z) (past : bool)
    (** [q >= data_end] was evaluated, with that outcome *)
| EvLoad (p n : Z)
    (** the [n] packet bytes at [p] were dereferenced *)
| EvStatsLookup (key : Z)
    (** [bpf_map_lookup_elem(&stats, &key)] *)
| EvFieldIncr (f : stats_field)
    (** [stats_val->f++] in [xdp_router.c] *)
| EvSlotIncr (key : Z)
    (** [( *count)++] on slot [key] of [stats] in [tc_cache.c] *)
| EvRouteLookup (key : route_key)
    (** [bpf_map_lookup_elem(&route_map, &key)] *)
| EvCacheLookup (key : cache_key)
    (** [bpf_map_lookup_elem(&http_cache, &key)] *)
| EvKtime
    (** [bpf_ktime_get_ns()] *).

(** ** The execution monad: state, fault, trace *)

Definition M (S A : Type) : Type := S -> option (A * S * list event).

Definition ret {S A : Type} (a : A) : M S A := fun s => Some (a, s, []).

Definition bind {S A B : Type} (m : M S A) (f : A -> M S B) : M S B :=
  fun s =>
    match m s with
    | None => None
    | Some (a, s1, t1) =>
        match f a s1 with
        | None => None
        | Some (b, s2, t2) => Some (b, s2, t1 ++ t2)
        end
    end.

Declare Scope bpf_scope.
Delimit Scope bpf_scope with bpf.
Notation "x <- m ;; k" := (bind m (fun x => k))
  (at level 61, m at next level, right associativity) : bpf_scope.
Notation "m ;;; k" := (bind m (fun _ => k))
  (at level 61, right associativity) : bpf_scope.
Open Scope bpf_scope.

Definition emit {S : Type} (e : event) : M S unit :=
  fun s => Some (tt, s, [e]).

Definition gets {S A : Type} (f : S -> A) : M S A :=
  fun s => Some (f s, s, []).

Definition modify {S : Type} (f : S -> S) : M S unit :=
  fun s => Some (tt, f s, []).

(** [(void * )q > data_end] *)
Definition gt_end {S : Type} (pkt : packet) (q : Z) : M S bool :=
  let past := q >? pkt_data_end pkt in
  emit (EvGtEnd q past) ;;; ret past.

(** [(void * )q >= data_end] *)
Definition ge_end {S : Type} (pkt : packet) (q : Z) : M S bool :=
  let past := q >=? pkt_data_end pkt in
  emit (EvGeEnd q past) ;;; ret past.

(** Dereference of the [n] bytes at [p], yielding [v]; a fault when the
    range leaves the buffer. *)
Definition deref {S : Type} (pkt : packet) (p n v : Z) : M S Z :=
  fun s =>
    if (pkt_data pkt <=? p) && (p + n <=? pkt_data_end pkt)
    then Some (v, s, [EvLoad p n])
    else None.

Definition load8 {S : Type} (pkt : packet) (p : Z) : M S Z :=
  deref pkt p 1 (byte_at pkt p).

Definition load16 {S : Type} (bo : byte_order) (pkt : packet) (p : Z)
  : M S Z :=
  deref pkt p 2 (read16 bo pkt p).

Definition load32 {S : Type} (bo : byte_order) (pkt : packet) (p : Z)
  : M S Z :=
  deref pkt p 4 (read32 bo pkt p).

(** A per-CPU array map: [bpf_map_lookup_elem] yields a pointer to the
    slot for every key below [max_entries] and NULL otherwise.  The
    pointer is the slot index. *)
Definition array_lookup {S : Type} (max_entries key : Z) : M S (option Z) :=
  emit (EvStatsLookup key) ;;;
  ret (if (0 <=? key) && (key <? max_entries) then Some key else None).

Definition upd {V : Type} (m : Z -> V) (k : Z) (v : V) : Z -> V :=
  fun k' => if k' =? k then v else m k'.

(** ** [xdp_router.c] *)

Module XdpRouter.

Definition MAX_ROUTES : Z := 256.

(** The maps of the program: [route_map] answers a lookup as the
    kernel's LPM trie does for its current contents; [stats] is this
    CPU's copy of the one-entry per-CPU array. *)
Record world : Type := {
  route_map : route_key -> option route_value;
  stats : Z -> stats_value
}.

Definition stats_max_entries : Z := 1.

Definition incr (ptr : Z) (f : stats_field) : M world unit :=
  emit (EvFieldIncr f) ;;;
  modify (fun w => {| route_map := route_map w;
                      stats := upd (stats w) ptr (bump f (stats w ptr)) |}).

Definition lookup_route (key : route_key) : M world (option route_value) :=
  emit (EvRouteLookup key) ;;;
  gets (fun w => route_map w key).

Definition parse_eth (pkt : packet) (data : Z) : M world (option Z) :=
  let eth_hdr := data in
  past <- gt_end pkt (eth_hdr + sizeof_ethhdr) ;;
  if past then ret None
  else ret (Some eth_hdr).

Definition parse_ip (pkt : packet) (eth : Z) : M world (option Z) :=
  let ip_hdr := eth + sizeof_ethhdr in
  past <- gt_end pkt (ip_hdr + sizeof_iphdr) ;;
  if past then ret None
  else
    b <- load8 pkt ip_hdr ;;
    if negb (version_of b =? 4) then ret None
    else ret (Some ip_hdr).

Definition parse_tcp (pkt : packet) (ip : Z) : M world (option Z) :=
  b <- load8 pkt ip ;;
  let tcp_hdr := ip + ihl_of b * 4 in
  past <- gt_end pkt (tcp_hdr + sizeof_tcphdr) ;;
  if past then ret None
  else ret (Some tcp_hdr).

Definition xdp_router_prog (bo : byte_order) (ctx : packet)
  : M world xdp_action :=
  let data := pkt_data ctx in
  let stats_key := 0 in
  stats_val <- array_lookup stats_max_entries stats_key ;;
  match stats_val with
  | None => ret XDP_PASS
  | Some stats_val =>
    incr stats_val F_packets_total ;;;
    eth <- parse_eth ctx data ;;
    match eth with
    | None => ret XDP_PASS
    | Some eth =>
      h_proto <- load16 bo ctx (eth + ethhdr_h_proto) ;;
      if negb (h_proto =? bpf_htons bo ETH_P_IP) then ret XDP_PASS
      else
        ip <- parse_ip ctx eth ;;
        match ip with
        | None => ret XDP_PASS
        | Some ip =>
          proto <- load8 ctx (ip + iphdr_protocol) ;;
          if negb (proto =? IPPROTO_TCP) then ret XDP_PASS
          else
            tcp <- parse_tcp ctx ip ;;
            match tcp with
            | None => ret XDP_PASS
            | Some tcp =>
              daddr <- load32 bo ctx (ip + iphdr_daddr) ;;
              dest <- load16 bo ctx (tcp + tcphdr_dest) ;;
              proto' <- load8 ctx (ip + iphdr_protocol) ;;
              let key := {| prefix_len := 48;
                            dest_ip := daddr;
                            dest_port := dest;
                            protocol := proto' |} in
              route <- lookup_route key ;;
              match route with
              | Some route =>
                if action route =? 1 then
                  incr stats_val F_packets_dropped ;;; ret XDP_DROP
                else if action route =? 2 then
                  incr stats_val F_packets_passed ;;; ret XDP_TX
                else
                  incr stats_val F_packets_passed ;;; ret XDP_PASS
              | None =>
                incr stats_val F_packets_passed ;;; ret XDP_PASS
              end
            end
        end
    end
  end.

End XdpRouter.

(** ** [tc_cache.c] *)

Module TcCache.

(** The maps of the program and the clock: [http_cache] answers a
    lookup as the kernel's LRU hash does for its current contents;
    [stats] is this CPU's copy of the four-slot per-CPU array of 64-bit
    counters; [ktime] is what [bpf_ktime_get_ns] returns. *)
Record world : Type := {
  http_cache : cache_key -> option cache_value;
  stats : Z -> Z;
  ktime : Z
}.

Definition stats_max_entries : Z := 4.

(** [( *count)++] *)
Definition incr (ptr : Z) : M world unit :=
  emit (EvSlotIncr ptr) ;;;
  modify (fun w => {| http_cache := http_cache w;
                      stats := upd (stats w) ptr (u64 (stats w ptr + 1));
                      ktime := ktime w |}).

Definition lookup_cache (key : cache_key) : M world (option cache_value) :=
  emit (EvCacheLookup key) ;;;
  gets (fun w => http_cache w key).

Definition bpf_ktime_get_ns : M world Z :=
  emit EvKtime ;;; gets ktime.

(** The loop of [fnv1a_hash]: [i] runs from [0] while
    [i < 256 && i < len]; 256 rounds of fuel cover it. *)
Fixpoint fnv1a_loop {S : Type} (pkt : packet) (data len : Z)
    (fuel : nat) (i : Z) (hash : Z) : M S Z :=
  match fuel with
  | O => ret hash
  | Datatypes.S fuel' =>
      if (i <? 256) && (i <? len) then
        if i >=? len then ret hash
        else
          b <- load8 pkt (data + i) ;;
          let hash := Z.lxor hash b in
          let hash := u64 (hash * FNV_PRIME) in
          fnv1a_loop pkt data len fuel' (i + 1) hash
      else ret hash
  end.

Definition fnv1a_hash {S : Type} (pkt : packet) (data len : Z) : M S Z :=
  fnv1a_loop pkt data len 256%nat 0 FNV_OFFSET.

Definition parse_http_start (bo : byte_order) (pkt : packet) (tcp : Z)
  : M world (option (Z * Z)) :=
  b <- load8 pkt (tcp + tcphdr_doff_byte) ;;
  let start := tcp + doff_of b * 4 in
  past <- gt_end pkt (start + 4) ;;
  if past then ret None
  else
    m <- load32 bo pkt start ;;
    ret (Some (start, m)).

Definition is_delim (c : Z) : bool :=
  (c =? 32) || (c =? 13) || (c =? 10).

(** The URL scan: [i] runs from [0] while [i < MAX_URL_LEN]. *)
Fixpoint url_scan {S : Type} (pkt : packet) (url_start : Z)
    (fuel : nat) (i : Z) (url_len : Z) : M S Z :=
  match fuel with
  | O => ret url_len
  | Datatypes.S fuel' =>
      past <- ge_end pkt (url_start + i) ;;
      if past then ret url_len
      else
        c <- load8 pkt (url_start + i) ;;
        if is_delim c then ret url_len
        else url_scan pkt url_start fuel' (i + 1) (url_len + 1)
  end.

Definition tc_http_cache (bo : byte_order) (skb : packet)
  : M world tc_action :=
  let data := pkt_data skb in
  let stats_key := 0 in
  count <- array_lookup stats_max_entries stats_key ;;
  match count with Some count => incr count | None => ret tt end ;;;
  let eth := data in
  past <- gt_end skb (eth + sizeof_ethhdr) ;;
  if past then ret TC_ACT_OK
  else
    h_proto <- load16 bo skb (eth + ethhdr_h_proto) ;;
    if negb (h_proto =? bpf_htons bo ETH_P_IP) then ret TC_ACT_OK
    else
      let ip := eth + sizeof_ethhdr in
      past <- gt_end skb (ip + sizeof_iphdr) ;;
      if past then ret TC_ACT_OK
      else
        proto <- load8 skb (ip + iphdr_protocol) ;;
        if negb (proto =? IPPROTO_TCP) then ret TC_ACT_OK
        else
          b <- load8 skb ip ;;
          let tcp := ip + ihl_of b * 4 in
          past <- gt_end skb (tcp + sizeof_tcphdr) ;;
          if past then ret TC_ACT_OK
          else
            dest <- load16 bo skb (tcp + tcphdr_dest) ;;
            let dport := bpf_ntohs bo dest in
            if negb (dport =? 80) && negb (dport =? 8080)
               && negb (dport =? 3000)
            then ret TC_ACT_OK
            else
              r <- parse_http_start bo skb tcp ;;
              match r with
              | None => ret TC_ACT_OK
              | Some (http_start, method_raw) =>
                let method :=
                  if method_raw =? HTTP_GET then 1
                  else if method_raw =? HTTP_POST then 2
                  else 0 in
                if negb (method =? 1) then ret TC_ACT_OK
                else
                  let url_start := http_start + 4 in
                  url_len <- url_scan skb url_start MAX_URL_LEN 0 0 ;;
                  if url_len =? 0 then ret TC_ACT_OK
                  else
                    h <- fnv1a_hash skb url_start url_len ;;
                    let key := {| hash := h;
                                  method := method;
                                  port := dport;
                                  padding := 0 |} in
                    cached <- lookup_cache key ;;
                    match cached with
                    | Some cached =>
                      now <- bpf_ktime_get_ns ;;
                      if u64 (now - timestamp cached) <? CACHE_TTL_NS
                      then
                        let hit_key := 1 in
                        hits <- array_lookup stats_max_entries hit_key ;;
                        match hits with
                        | Some hits => incr hits
                        | None => ret tt
                        end ;;;
                        ret TC_ACT_OK
                      else ret TC_ACT_OK
                    | None => ret TC_ACT_OK
                    end
              end
  .

End TcCache.

(** ** Packet fields in network order *)

Definition be16 (pkt : packet) (p : Z) : Z :=
  256 * byte_at pkt p + byte_at pkt (p + 1).

Definition eth_type (pkt : packet) : Z := be16 pkt 12.
Definition ip_version (pkt : packet) : Z := version_of (byte_at pkt 14).
Definition ip_ihl (pkt : packet) : Z := ihl_of (byte_at pkt 14).
Definition ip_proto (pkt : packet) : Z := byte_at pkt 23.
Definition tcp_off (pkt : packet) : Z := 14 + ip_ihl pkt * 4.
Definition tcp_dport (pkt : packet) : Z := be16 pkt (tcp_off pkt + 2).
Definition tcp_doff (pkt : packet) : Z :=
  doff_of (byte_at pkt (tcp_off pkt + 12)).
Definition payload_off (pkt : packet) : Z := tcp_off pkt + tcp_doff pkt * 4.
Definition url_off (pkt : packet) : Z := payload_off pkt + 4.

(** ** Properties of traces *)

Definition is_lookup (e : event) : bool :=
  match e with
  | EvRouteLookup _ | EvCacheLookup _ => true
  | _ => false
  end.

Definition has_lookup (t : list event) : bool := existsb is_lookup t.

(** Some [q > data_end] check came out true. *)
Definition gt_failed (t : list event) : bool :=
  existsb (fun e => match e with EvGtEnd _ true => true | _ => false end) t.

(** The check [q >= data_end] was made for this [q] and came out true. *)
Definition ge_failed_at (q : Z) (t : list event) : bool :=
  existsb (fun e => match e with
                    | EvGeEnd q' true => q' =? q
                    | _ => false
                    end) t.

(** Every dereference stays inside the buffer. *)
Definition loads_within (pkt : packet) (t : list event) : bool :=
  forallb (fun e => match e with
                    | EvLoad p n =>
                        (0 <=? p) && (0 <? n) && (p + n <=? pkt_data_end pkt)
                    | _ => true
                    end) t.

(** Every dereference is covered by an earlier comparison with
    [data_end] that came out in bounds: [hi] is the end of the range the
    comparisons made so far have shown to lie inside the buffer. *)
Fixpoint guarded (hi : Z) (t : list event) : bool :=
  match t with
  | [] => true
  | EvGtEnd q false :: t' => guarded (Z.max hi q) t'
  | EvGeEnd q false :: t' => guarded (Z.max hi (q + 1)) t'
  | EvLoad p n :: t' =>
      (0 <=? p) && (0 <? n) && (p + n <=? hi) && guarded hi t'
  | _ :: t' => guarded hi t'
  end.

Definition is_field_incr (f : stats_field) (e : event) : bool :=
  match e, f with
  | EvFieldIncr F_packets_total, F_packets_total => true
  | EvFieldIncr F_packets_passed, F_packets_passed => true
  | EvFieldIncr F_packets_dropped, F_packets_dropped => true
  | EvFieldIncr F_cache_hits, F_cache_hits => true
  | _, _ => false
  end.

(** A counter was incremented. *)
Definition is_incr (e : event) : bool :=
  match e with
  | EvFieldIncr _ | EvSlotIncr _ => true
  | _ => false
  end.

(** ** Reference definitions for the URL token and the fingerprint *)

(** The [n] bytes of the buffer at [p] (fewer when the buffer ends). *)
Definition slice (pkt : packet) (p n : Z) : list byte :=
  firstn (Z.to_nat n) (skipn (Z.to_nat p) pkt).

(** The longest prefix free of space, carriage return and line feed. *)
Fixpoint until_delim (l : list byte) : list byte :=
  match l with
  | [] => []
  | b :: l' =>
      if TcCache.is_delim (byte_val b) then [] else b :: until_delim l'
  end.

(** The URL token of a GET request: what follows the 4-byte method token,
    up to the first delimiter, the end of the buffer or 192 bytes. *)
Definition url_token (pkt : packet) : list byte :=
  until_delim (firstn MAX_URL_LEN (skipn (Z.to_nat (url_off pkt)) pkt)).

Definition url_token_len (pkt : packet) : Z :=
  Z.of_nat (length (url_token pkt)).

(** 64-bit FNV-1a: xor the byte in, multiply by the prime, over at most
    the first 256 bytes. *)
Definition fnv1a_step (h : Z) (b : byte) : Z :=
  u64 (Z.lxor h (byte_val b) * 0x100000001b3).

Definition fnv1a_fold (bs : list byte) : Z :=
  fold_left fnv1a_step (firstn 256 bs) 0xcbf29ce484222325.

(** The comparisons and dereferences of the URL scan started at [p] with
    [l] the bytes from [p] to the end of the buffer. *)
Fixpoint scan_events (p : Z) (fuel : nat) (l : list byte) : list event :=
  match fuel with
  | O => []
  | S fuel' =>
      match l with
      | [] => [EvGeEnd p true]
      | b :: l' =>
          EvGeEnd p false :: EvLoad p 1 ::
          (if TcCache.is_delim (byte_val b) then []
           else scan_events (p + 1) fuel' l')
      end
  end.

(** [k] single-byte dereferences from [p] on. *)
Fixpoint load_events (p : Z) (k : nat) : list event :=
  match k with
  | O => []
  | S k' => EvLoad p 1 :: load_events (p + 1) k'
  end.

(** ** Classes of packets *)

(** Ethernet, IPv4-typed, TCP, with the three headers inside the buffer:
    what [tc_http_cache] requires before it looks at the port. *)
Definition tc_tcp_segment (pkt : packet) : bool :=
  (34 <=? pkt_data_end pkt) && (eth_type pkt =? 2048)
  && (ip_proto pkt =? 6) && (tcp_off pkt + 20 <=? pkt_data_end pkt).

(** The same with the IP version field equal to 4: what
    [xdp_router_prog] requires before the route lookup. *)
Definition xdp_tcp_segment (pkt : packet) : bool :=
  tc_tcp_segment pkt && (ip_version pkt =? 4).

Definition port_allowed (p : Z) : bool :=
  (p =? 80) || (p =? 8080) || (p =? 3000).

(** A segment to an allowed port whose payload holds a 4-byte token that
    the target reads as [HTTP_GET]. *)
Definition tc_get_request (bo : byte_order) (pkt : packet) : bool :=
  tc_tcp_segment pkt && port_allowed (tcp_dport pkt)
  && (payload_off pkt + 4 <=? pkt_data_end pkt)
  && (read32 bo pkt (payload_off pkt) =? HTTP_GET).

(** The key [xdp_router_prog] builds for a packet. *)
Definition xdp_key (bo : byte_order) (pkt : packet) : route_key :=
  {| prefix_len := 48;
     dest_ip := read32 bo pkt 30;
     dest_port := read16 bo pkt (tcp_off pkt + 2);
     protocol := ip_proto pkt |}.

(** The verdict and the counter [xdp_router_prog] picks for the result
    of the route lookup. *)
Definition xdp_verdict (r : option route_value) : xdp_action :=
  match r with
  | Some route =>
      if action route =? 1 then XDP_DROP
      else if action route =? 2 then XDP_TX
      else XDP_PASS
  | None => XDP_PASS
  end.

Definition xdp_counter (r : option route_value) : stats_field :=
  match r with
  | Some route =>
      if action route =? 1 then F_packets_dropped else F_packets_passed
  | None => F_packets_passed
  end.

(** The events of [xdp_router_prog] up to the route lookup. *)
Definition xdp_header_events (pkt : packet) : list event :=
  [EvStatsLookup 0; EvFieldIncr F_packets_total; EvGtEnd 14 false;
   EvLoad 12 2; EvGtEnd 34 false; EvLoad 14 1; EvLoad 23 1; EvLoad 14 1;
   EvGtEnd (tcp_off pkt + 20) false; EvLoad 30 4;
   EvLoad (tcp_off pkt + 2) 2; EvLoad 23 1].

(** The key [tc_http_cache] builds for a GET request. *)
Definition tc_key (pkt : packet) : cache_key :=
  {| hash := fnv1a_fold (url_token pkt);
     method := 1;
     port := tcp_dport pkt;
     padding := 0 |}.

(** The events of [tc_http_cache] up to and including the port load. *)
Definition tc_header_events (pkt : packet) : list event :=
  [EvStatsLookup 0; EvSlotIncr 0; EvGtEnd 14 false; EvLoad 12 2;
   EvGtEnd 34 false; EvLoad 23 1; EvLoad 14 1;
   EvGtEnd (tcp_off pkt + 20) false; EvLoad (tcp_off pkt + 2) 2].

(** The events from the data-offset load to the end of the URL scan. *)
Definition tc_request_events (pkt : packet) : list event :=
  [EvLoad (tcp_off pkt + 12) 1; EvGtEnd (payload_off pkt + 4) false;
   EvLoad (payload_off pkt) 4]
  ++ scan_events (url_off pkt) MAX_URL_LEN
       (skipn (Z.to_nat (url_off pkt)) pkt).

(** [( *count)++] on slot [k] of the [stats] array of [tc_cache.c]. *)
Definition slot_incr (k : Z) (st : Z -> Z) : Z -> Z :=
  upd st k (u64 (st k + 1)).

(** What [tc_http_cache] does after the URL scan of a GET request: the
    events, and the counters it leaves. *)
Definition tc_probe_events (pkt : packet) (w : TcCache.world) : list event :=
  if url_token_len pkt =? 0 then []
  else
    load_events (url_off pkt) (length (url_token pkt))
    ++ EvCacheLookup (tc_key pkt)
       :: match TcCache.http_cache w (tc_key pkt) with
          | Some cached =>
              EvKtime ::
              (if u64 (TcCache.ktime w - timestamp cached) <? CACHE_TTL_NS
               then [EvStatsLookup 1; EvSlotIncr 1]
               else [])
          | None => []
          end.

Definition tc_probe_stats (pkt : packet) (w : TcCache.world) : Z -> Z :=
  if url_token_len pkt =? 0 then slot_incr 0 (TcCache.stats w)
  else
    match TcCache.http_cache w (tc_key pkt) with
    | Some cached =>
        if u64 (TcCache.ktime w - timestamp cached) <? CACHE_TTL_NS
        then slot_incr 1 (slot_incr 0 (TcCache.stats w))
        else slot_incr 0 (TcCache.stats w)
    | None => slot_incr 0 (TcCache.stats w)
    end.

(** The receive hook run on a sequence of packets by one CPU. *)
Fixpoint xdp_run (bo : byte_order) (pkts : list packet)
    (w : XdpRouter.world) : option XdpRouter.world :=
  match pkts with
  | [] => Some w
  | p :: ps =>
      match XdpRouter.xdp_router_prog bo p w with
      | Some (_, w', _) => xdp_run bo ps w'
      | None => None
      end
  end.

(** The counters are 64-bit values and the total bounds the sum of the
    others. *)
Definition counters_within (s : stats_value) : Prop :=
  0 <= packets_total s < 2 ^ 64
  /\ 0 <= packets_passed s
  /\ 0 <= packets_dropped s
  /\ 0 <= cache_hits s
  /\ packets_passed s + packets_dropped s + cache_hits s <= packets_total s.

Definition zero_stats : stats_value :=
  {| packets_total := 0; packets_passed := 0;
     packets_dropped := 0; cache_hits := 0 |}.

(** ** Concrete packets and maps *)

Definition byte_of (z : Z) : byte :=
  match Byte.of_N (Z.to_N z) with Some b => b | None => x00 end.

(** An Ethernet header of ethertype 0x0800. *)
Definition sample_eth : packet :=
  map byte_of [2; 0; 0; 0; 0; 1;  2; 0; 0; 0; 0; 2;  8; 0].

(** An option-less IP header to 10.0.0.2 with the given first byte and
    protocol. *)
Definition sample_ip (first proto : Z) : packet :=
  map byte_of [first; 0; 0; 60;  0; 0; 0; 0;  64; proto; 0; 0;
               10; 0; 0; 1;  10; 0; 0; 2].

(** An option-less TCP header to the given port. *)
Definition sample_tcp (dport : Z) : packet :=
  map byte_of [192; 0; dport / 256; dport mod 256;
               0; 0; 0; 0;  0; 0; 0; 0;  80; 24; 0; 0;  0; 0; 0; 0].

(** The bytes that a target of the given byte order reads as [HTTP_GET]. *)
Definition sample_get (bo : byte_order) : packet :=
  match bo with
  | BigEndian => map byte_of [71; 69; 84; 32]
  | LittleEndian => map byte_of [32; 84; 69; 71]
  end.

(** A TCP segment carrying a request that starts with a GET token;
    [first] is the first byte of the IP header, [rest] what follows the
    token. *)
Definition sample_request (bo : byte_order) (first dport : Z)
    (rest : list Z) : packet :=
  sample_eth ++ sample_ip first 6 ++ sample_tcp dport
  ++ sample_get bo ++ map byte_of rest.

(** A TCP segment without payload. *)
Definition sample_segment (first dport : Z) : packet :=
  sample_eth ++ sample_ip first 6 ++ sample_tcp dport.

(** Maps that answer every lookup alike. *)
Definition xdp_world (r : option route_value) (s : stats_value)
  : XdpRouter.world :=
  {| XdpRouter.route_map := fun _ => r; XdpRouter.stats := fun _ => s |}.

Definition tc_world (c : option cache_value) (now : Z) : TcCache.world :=
  {| TcCache.http_cache := fun _ => c;
     TcCache.stats := fun _ => 0;
     TcCache.ktime := now |}.

(** What a run shows from outside: verdict, the four counters, trace. *)
Definition xdp_view (r : option (xdp_action * XdpRouter.world * list event))
  : option (xdp_action * stats_value * list event) :=
  match r with
  | Some (v, w, t) => Some (v, XdpRouter.stats w 0, t)
  | None => None
  end.

Definition tc_view (r : option (tc_action * TcCache.world * list event))
  : option (tc_action * list Z * list event) :=
  match r with
  | Some (v, w, t) => Some (v, map (TcCache.stats w) [0; 1; 2; 3], t)
  | None => None
  end.

(** A request to port 80 cut off after the GET token and [/a]: 60
    bytes. *)
Definition truncated_url_packet (bo : byte_order) : packet :=
  sample_request bo 69 80 [47; 97].

(** What [tc_http_cache] does on it. *)
Definition truncated_url_trace : list event :=
  [EvStatsLookup 0; EvSlotIncr 0; EvGtEnd 14 false; EvLoad 12 2;
   EvGtEnd 34 false; EvLoad 23 1; EvLoad 14 1; EvGtEnd 54 false;
   EvLoad 36 2; EvLoad 46 1; EvGtEnd 58 false; EvLoad 54 4;
   EvGeEnd 58 false; EvLoad 58 1; EvGeEnd 59 false; EvLoad 59 1;
   EvGeEnd 60 true;
   EvLoad 58 1; EvLoad 59 1;
   EvCacheLookup {| hash := 0x07d66707b49cd92d; method := 1;
                    port := 80; padding := 0 |}].

(** An IPv4 segment to 10.0.0.2, port 80. *)
Definition plain_segment : packet := sample_segment 69 80.

(** A route entry with the given action. *)
Definition route_with (a : Z) : option route_value :=
  Some {| action := a; backend_ip := 0; backend_port := 0 |}.

(** What [xdp_router_prog] does on [plain_segment] when the route lookup
    hits, up to the counter [f] it increments last. *)
Definition plain_segment_trace (f : stats_field) : list event :=
  [EvStatsLookup 0; EvFieldIncr F_packets_total; EvGtEnd 14 false;
   EvLoad 12 2; EvGtEnd 34 false; EvLoad 14 1; EvLoad 23 1; EvLoad 14 1;
   EvGtEnd 54 false; EvLoad 30 4; EvLoad 36 2; EvLoad 23 1;
   EvRouteLookup {| prefix_len := 48; dest_ip := 0x0200000a;
                    dest_port := 0x5000; protocol := 6 |};
   EvFieldIncr f].

(** [GET /a/b HTTP/1.1] and a line end, to port 8080. *)
Definition get_ab_packet (bo : byte_order) : packet :=
  sample_request bo 69 8080
    [47; 97; 47; 98; 32; 72; 84; 84; 80; 47; 49; 46; 49; 13; 10].

(** A cache entry written at [ts]. *)
Definition cache_entry (ts : Z) : option cache_value :=
  Some {| timestamp := ts; status := 200; content_len := 0;
          content_type := 0; body := [] |}.

(** [GET /a/b HTTP/1.1] to port 80 in a frame of ethertype 0x0800 whose
    IP header starts with the byte 0x65: version 6, header length 5. *)
Definition version6_request (bo : byte_order) : packet :=
  sample_request bo 101 80
    [47; 97; 47; 98; 32; 72; 84; 84; 80; 47; 49; 46; 49; 13; 10].

Definition version6_tc_trace : list event :=
  [EvStatsLookup 0; EvSlotIncr 0; EvGtEnd 14 false; EvLoad 12 2;
   EvGtEnd 34 false; EvLoad 23 1; EvLoad 14 1; EvGtEnd 54 false;
   EvLoad 36 2; EvLoad 46 1; EvGtEnd 58 false; EvLoad 54 4;
   EvGeEnd 58 false; EvLoad 58 1; EvGeEnd 59 false; EvLoad 59 1;
   EvGeEnd 60 false; EvLoad 60 1; EvGeEnd 61 false; EvLoad 61 1;
   EvGeEnd 62 false; EvLoad 62 1;
   EvLoad 58 1; EvLoad 59 1; EvLoad 60 1; EvLoad 61 1;
   EvCacheLookup {| hash := 0x363e289cb38ee0cc; method := 1;
                    port := 80; padding := 0 |};
   EvKtime; EvStatsLookup 1; EvSlotIncr 1].

Definition version6_xdp_trace : list event :=
  [EvStatsLookup 0; EvFieldIncr F_packets_total; EvGtEnd 14 false;
   EvLoad 12 2; EvGtEnd 34 false; EvLoad 14 1].


(** An ARP frame: ethertype 0x0806 and 28 bytes of payload. *)
Definition arp_frame : packet :=
  map byte_of [255; 255; 255; 255; 255; 255;  2; 0; 0; 0; 0; 2;  8; 6]
  ++ repeat (byte_of 0) 28.

(** ** Definitions for the further properties *)

(** The route lookup yields an entry with the drop action. *)
Definition is_drop_route (r : option route_value) : bool :=
  match r with Some route => action route =? 1 | None => false end.

(** The packets [xdp_router_prog] counts as dropped, and as passed, under
    the route table of [w]. *)
Definition xdp_counts_dropped (bo : byte_order) (w : XdpRouter.world)
    (pkt : packet) : bool :=
  xdp_tcp_segment pkt
  && is_drop_route (XdpRouter.route_map w (xdp_key bo pkt)).

Definition xdp_counts_passed (bo : byte_order) (w : XdpRouter.world)
    (pkt : packet) : bool :=
  xdp_tcp_segment pkt
  && negb (is_drop_route (XdpRouter.route_map w (xdp_key bo pkt))).

(** The transmit hook run by one CPU on a sequence of packets, each with
    the contents of the cache and the clock reading of its time. *)
Fixpoint tc_run (bo : byte_order)
    (calls : list (packet * (cache_key -> option cache_value) * Z))
    (st : Z -> Z) : option (Z -> Z) :=
  match calls with
  | [] => Some st
  | (pkt, cache, now) :: rest =>
      match TcCache.tc_http_cache bo pkt
              {| TcCache.http_cache := cache;
                 TcCache.stats := st;
                 TcCache.ktime := now |} with
      | Some (_, w', _) => tc_run bo rest (TcCache.stats w')
      | None => None
      end
  end.

(** The events of [parse_http_start] when the method token is inside the
    buffer. *)
Definition tc_token_events (pkt : packet) : list event :=
  [EvLoad (tcp_off pkt + 12) 1; EvGtEnd (payload_off pkt + 4) false;
   EvLoad (payload_off pkt) 4].

(** A segment to port 3000 whose payload starts with the bytes that a
    target of the given byte order reads as [HTTP_POST]. *)
Definition post_packet (bo : byte_order) : packet :=
  sample_eth ++ sample_ip 69 6 ++ sample_tcp 3000
  ++ match bo with
     | BigEndian => map byte_of [80; 79; 83; 84]
     | LittleEndian => map byte_of [84; 83; 79; 80]
     end
  ++ map byte_of [32; 47; 120; 32].

(** An IPv4 packet of protocol 17 with a UDP header. *)
Definition udp_datagram : packet :=
  sample_eth ++ sample_ip 69 17 ++ map byte_of [192; 0; 0; 53; 0; 8; 0; 0].

(** ** Requests that end the URL token in each of the three ways *)

(** [GET /a], carriage return, line feed: ASCII on the wire, to port
    8080. *)
Definition get_cr_packet : packet :=
  sample_request BigEndian 69 8080 [47; 97; 13; 10].

(** [GET /ab], line feed, [/]. *)
Definition get_lf_packet : packet :=
  sample_request BigEndian 69 8080 [47; 97; 98; 10; 47].

(** [GET] followed by two spaces: an empty token. *)
Definition get_empty_packet : packet :=
  sample_request BigEndian 69 8080 [32; 47; 97].

(** * Proofs *)

#[local] Arguments Z.add _ _ : simpl nomatch.
#[local] Arguments Z.mul _ _ : simpl nomatch.
#[local] Arguments Z.sub _ _ : simpl nomatch.
#[local] Arguments Z.compare _ _ : simpl nomatch.
#[local] Arguments Z.leb _ _ : simpl nomatch.
#[local] Arguments Z.ltb _ _ : simpl nomatch.
#[local] Arguments Z.gtb _ _ : simpl nomatch.
#[local] Arguments Z.geb _ _ : simpl nomatch.
#[local] Arguments Z.eqb _ _ : simpl nomatch.
#[local] Arguments Z.max _ _ : simpl nomatch.
#[local] Arguments byte_at : simpl never.
#[local] Arguments byte_val : simpl never.
#[local] Arguments read16 : simpl never.
#[local] Arguments read32 : simpl never.
#[local] Arguments bpf_htons : simpl never.
#[local] Arguments bpf_ntohs : simpl never.
#[local] Arguments ihl_of : simpl never.
#[local] Arguments doff_of : simpl never.
#[local] Arguments version_of : simpl never.
#[local] Arguments pkt_data_end : simpl never.
#[local] Arguments u64 : simpl never.
#[local] Arguments bump : simpl never.
#[local] Arguments TcCache.url_scan : simpl never.
#[local] Arguments TcCache.fnv1a_loop : simpl never.
#[local] Arguments TcCache.fnv1a_hash : simpl never.
#[local] Arguments TcCache.is_delim : simpl never.
#[local] Arguments scan_events : simpl never.
#[local] Arguments load_events : simpl never.
#[local] Arguments fnv1a_fold : simpl never.
#[local] Arguments url_token : simpl never.

(** ** Bytes and header fields *)

Lemma byte_val_range (b : byte) : 0 <= byte_val b <= 255.
Proof.
  unfold byte_val. pose proof (Byte.to_N_bounded b). lia.
Qed.

Lemma byte_at_range (pkt : packet) (p : Z) : 0 <= byte_at pkt p <= 255.
Proof. apply byte_val_range. Qed.

Lemma ihl_of_range (b : Z) : 0 <= b -> 0 <= ihl_of b <= 15.
Proof.
  intros Hb. unfold ihl_of.
  change (Z.land b 15) with (Z.land b (Z.ones 4)).
  rewrite Z.land_ones by lia. change (2 ^ 4) with 16.
  pose proof (Z.mod_pos_bound b 16). lia.
Qed.

Lemma doff_of_range (b : Z) : 0 <= b <= 255 -> 0 <= doff_of b <= 15.
Proof.
  intros Hb. unfold doff_of. rewrite Z.shiftr_div_pow2 by lia.
  change (2 ^ 4) with 16. split.
  - apply Z.div_pos; lia.
  - assert (b / 16 < 16) by (apply Z.div_lt_upper_bound; lia). lia.
Qed.

Lemma ip_ihl_range (pkt : packet) : 0 <= ip_ihl pkt <= 15.
Proof. apply ihl_of_range, byte_at_range. Qed.

Lemma tcp_doff_range (pkt : packet) : 0 <= tcp_doff pkt <= 15.
Proof. apply doff_of_range, byte_at_range. Qed.

(** Swapping the two bytes of a 16-bit value. *)
Lemma bswap16_bytes (a b : Z) :
  0 <= a <= 255 -> 0 <= b <= 255 -> bswap16 (a + 256 * b) = 256 * a + b.
Proof.
  intros Ha Hb. unfold bswap16.
  change 255 with (Z.ones 8) at 1. rewrite Z.land_ones by lia.
  rewrite Z.shiftr_land. change (Z.shiftr 65280 8) with (Z.ones 8).
  rewrite Z.land_ones by lia. rewrite Z.shiftr_div_pow2 by lia.
  rewrite Z.shiftl_mul_pow2 by lia. change (2 ^ 8) with 256.
  replace ((a + 256 * b) mod 256) with a by (Z.div_mod_to_equations; lia).
  replace ((a + 256 * b) / 256) with b by (Z.div_mod_to_equations; lia).
  rewrite (Z.mod_small b) by lia.
  assert (Hd : Z.land (a * 256) b = 0).
  { change 256 with (2 ^ 8). rewrite <- (Z.shiftl_mul_pow2 a 8) by lia.
    apply Z.bits_inj'. intros n Hn. rewrite Z.land_spec, Z.bits_0.
    destruct (Z.ltb_spec n 8).
    - rewrite Z.shiftl_spec_low by lia. reflexivity.
    - replace (Z.testbit b n) with false; [apply andb_false_r|].
      symmetry. apply Z.bits_above_log2; [lia|].
      destruct (Z.eq_dec b 0) as [->|]; [simpl; lia|].
      apply Z.log2_lt_pow2; [lia|].
      apply Z.lt_le_trans with (2 ^ 8); [simpl; lia|].
      apply Z.pow_le_mono_r; lia. }
  rewrite <- Z.lxor_lor by exact Hd.
  rewrite <- Z.add_nocarry_lxor by exact Hd. lia.
Qed.

(** [bpf_ntohs(tcp->dest)] is the field read in network order. *)
Lemma ntohs_read16 (bo : byte_order) (pkt : packet) (p : Z) :
  bpf_ntohs bo (read16 bo pkt p) = be16 pkt p.
Proof.
  destruct bo; unfold bpf_ntohs, read16, be16; [|reflexivity].
  apply bswap16_bytes; apply byte_at_range.
Qed.

(** The test [eth->h_proto != bpf_htons(ETH_P_IP)] compares the field,
    read in network order, with 0x0800 on either target. *)
Lemma read16_is_ip (bo : byte_order) (pkt : packet) (p : Z) :
  (read16 bo pkt p =? bpf_htons bo ETH_P_IP) = (be16 pkt p =? 2048).
Proof.
  destruct bo; unfold bpf_htons, read16, be16; [|reflexivity].
  change (bswap16 ETH_P_IP) with 8.
  pose proof (byte_at_range pkt p). pose proof (byte_at_range pkt (p + 1)).
  destruct (Z.eqb_spec (byte_at pkt p + 256 * byte_at pkt (p + 1)) 8);
    destruct (Z.eqb_spec (256 * byte_at pkt p + byte_at pkt (p + 1)) 2048);
    lia.
Qed.

(** ** Lists of bytes *)

Lemma skipn_nth_cons (l : list byte) (n : nat) :
  (n < length l)%nat -> skipn n l = nth n l x00 :: skipn (S n) l.
Proof.
  revert n. induction l as [|b l IH]; intros n Hn; simpl in Hn; [lia|].
  destruct n as [|n]; [reflexivity|].
  simpl. rewrite IH by lia. reflexivity.
Qed.

Lemma skipn_in_buffer (pkt : packet) (p : Z) :
  0 <= p < pkt_data_end pkt ->
  exists b,
    skipn (Z.to_nat p) pkt = b :: skipn (Z.to_nat (p + 1)) pkt
    /\ byte_val b = byte_at pkt p.
Proof.
  intros Hp. unfold pkt_data_end in Hp.
  exists (nth (Z.to_nat p) pkt x00). split; [|reflexivity].
  replace (Z.to_nat (p + 1)) with (S (Z.to_nat p)) by lia.
  apply skipn_nth_cons. lia.
Qed.

Lemma skipn_past_buffer (pkt : packet) (p : Z) :
  pkt_data_end pkt <= p -> skipn (Z.to_nat p) pkt = [].
Proof.
  intros Hp. unfold pkt_data_end in Hp. apply skipn_all2. lia.
Qed.

Lemma until_delim_length (l : list byte) :
  (length (until_delim l) <= length l)%nat.
Proof.
  induction l as [|b l IH]; simpl; [lia|].
  destruct (TcCache.is_delim (byte_val b)); simpl; lia.
Qed.

Lemma until_delim_prefix (l : list byte) :
  firstn (length (until_delim l)) l = until_delim l.
Proof.
  induction l as [|b l IH]; simpl; [reflexivity|].
  destruct (TcCache.is_delim (byte_val b)); simpl; [reflexivity|].
  now rewrite IH.
Qed.

Lemma until_delim_clean (l : list byte) (i : nat) :
  (i < length (until_delim l))%nat ->
  TcCache.is_delim (byte_val (nth i l x00)) = false.
Proof.
  revert i. induction l as [|b l IH]; intros i Hi; cbn [until_delim] in Hi.
  - cbn [length] in Hi. lia.
  - destruct (TcCache.is_delim (byte_val b)) eqn:Hb;
      cbn [length] in Hi; [lia|].
    destruct i as [|i]; [exact Hb|]. cbn [nth]. apply IH. lia.
Qed.

Lemma until_delim_stop (l : list byte) :
  (length (until_delim l) < length l)%nat ->
  TcCache.is_delim (byte_val (nth (length (until_delim l)) l x00)) = true.
Proof.
  induction l as [|b l IH]; cbn [until_delim length]; intros H; [lia|].
  destruct (TcCache.is_delim (byte_val b)) eqn:Hb; [exact Hb|].
  cbn [length nth] in *. apply IH. lia.
Qed.

Lemma url_window_nth (pkt : packet) (i : nat) :
  0 <= url_off pkt -> (i < MAX_URL_LEN)%nat ->
  byte_val (nth i (firstn MAX_URL_LEN
                     (skipn (Z.to_nat (url_off pkt)) pkt)) x00)
  = byte_at pkt (url_off pkt + Z.of_nat i).
Proof.
  intros Hus Hi. rewrite nth_firstn.
  replace (Nat.ltb i MAX_URL_LEN) with true
    by (symmetry; apply Nat.ltb_lt; exact Hi).
  rewrite nth_skipn. unfold byte_at, byte_val.
  replace (Z.to_nat (url_off pkt + Z.of_nat i))
    with (Z.to_nat (url_off pkt) + i)%nat by lia.
  reflexivity.
Qed.

Lemma url_token_len_bound (pkt : packet) :
  0 <= url_token_len pkt <= 192
  /\ (url_off pkt <= pkt_data_end pkt ->
      url_off pkt + url_token_len pkt <= pkt_data_end pkt).
Proof.
  unfold url_token_len, url_token.
  set (l := skipn (Z.to_nat (url_off pkt)) pkt).
  pose proof (until_delim_length (firstn MAX_URL_LEN l)) as H1.
  pose proof (length_firstn MAX_URL_LEN l) as H2.
  unfold MAX_URL_LEN in *. split; [lia|].
  intros Hu. subst l. rewrite length_skipn in H2.
  unfold pkt_data_end in *. lia.
Qed.

Lemma url_token_slice (pkt : packet) :
  slice pkt (url_off pkt) (url_token_len pkt) = url_token pkt.
Proof.
  unfold slice, url_token_len, url_token. rewrite Nat2Z.id.
  set (l := skipn (Z.to_nat (url_off pkt)) pkt).
  rewrite <- (until_delim_prefix (firstn MAX_URL_LEN l)) at 2.
  rewrite firstn_firstn. f_equal.
  pose proof (until_delim_length (firstn MAX_URL_LEN l)) as H1.
  assert (H3 : (length (firstn MAX_URL_LEN l) <= MAX_URL_LEN)%nat).
  { rewrite length_firstn. apply Nat.le_min_l. }
  lia.
Qed.

(** ** The two loops of [tc_cache.c] *)

(** The scan keeps the delimiter-free prefix of what the buffer holds from
    its current position on, at most [fuel] bytes of it. *)
Lemma url_scan_run (S : Type) (pkt : packet) (us : Z) (fuel : nat) :
  forall (i n : Z) (s : S),
    0 <= us + i ->
    TcCache.url_scan pkt us fuel i n s =
    Some (n + Z.of_nat (length (until_delim
                 (firstn fuel (skipn (Z.to_nat (us + i)) pkt)))),
          s,
          scan_events (us + i) fuel (skipn (Z.to_nat (us + i)) pkt)).
Proof.
  induction fuel as [|fuel IH]; intros i n s Hp.
  - unfold TcCache.url_scan, scan_events, ret. simpl. now rewrite Z.add_0_r.
  - unfold TcCache.url_scan; fold (@TcCache.url_scan S).
    unfold scan_events; fold scan_events.
    cbv beta iota zeta delta [bind ge_end emit ret load8 deref pkt_data].
    destruct (Z.geb_spec (us + i) (pkt_data_end pkt)) as [Hge|Hlt].
    + rewrite skipn_past_buffer by lia. simpl. now rewrite Z.add_0_r.
    + destruct (skipn_in_buffer pkt (us + i)) as (b & Hb & Hv); [lia|].
      rewrite Hb.
      replace ((0 <=? us + i) && (us + i + 1 <=? pkt_data_end pkt))
        with true by (symmetry; apply andb_true_iff; split; lia).
      rewrite <- Hv. simpl firstn. simpl until_delim.
      destruct (TcCache.is_delim (byte_val b)).
      * simpl. now rewrite Z.add_0_r.
      * cbv beta iota. rewrite IH by lia.
        replace (us + (i + 1)) with (us + i + 1) by lia.
        cbn [app length]. rewrite Nat2Z.inj_succ. do 3 f_equal. lia.
Qed.

(** The hash loop folds the bytes left up to position [min len 256]. *)
Lemma fnv1a_loop_run (S : Type) (pkt : packet) (data len : Z) (fuel : nat) :
  forall (i h : Z) (s : S),
    0 <= data -> 0 <= i ->
    Z.min len 256 - i <= Z.of_nat fuel ->
    data + Z.min len 256 <= pkt_data_end pkt ->
    TcCache.fnv1a_loop pkt data len fuel i h s =
    Some (fold_left fnv1a_step (slice pkt (data + i) (Z.min len 256 - i)) h,
          s,
          load_events (data + i) (Z.to_nat (Z.min len 256 - i))).
Proof.
  induction fuel as [|fuel IH]; intros i h s Hd Hi Hf Hb.
  - unfold TcCache.fnv1a_loop, ret, slice.
    replace (Z.to_nat (Z.min len 256 - i)) with O by lia. reflexivity.
  - unfold TcCache.fnv1a_loop; fold (@TcCache.fnv1a_loop S).
    destruct ((i <? 256) && (i <? len)) eqn:Hc.
    + apply andb_true_iff in Hc. destruct Hc as [Hc1 Hc2].
      replace (i >=? len) with false by lia.
      cbv beta iota zeta delta [bind load8 deref pkt_data].
      replace ((0 <=? data + i) && (data + i + 1 <=? pkt_data_end pkt))
        with true by (symmetry; apply andb_true_iff; split; lia).
      cbv beta iota. rewrite IH by lia.
      destruct (skipn_in_buffer pkt (data + i)) as (b & Hsk & Hv); [lia|].
      unfold slice.
      replace (Z.to_nat (Z.min len 256 - i))
        with (Datatypes.S (Z.to_nat (Z.min len 256 - (i + 1)))) by lia.
      rewrite Hsk. simpl firstn. simpl fold_left.
      unfold load_events; fold load_events.
      replace (data + (i + 1)) with (data + i + 1) by lia.
      unfold fnv1a_step at 3. rewrite Hv. reflexivity.
    + unfold ret, slice.
      replace (Z.to_nat (Z.min len 256 - i)) with O by lia. reflexivity.
Qed.

Lemma fnv1a_hash_run (S : Type) (pkt : packet) (data len : Z) (s : S) :
  0 <= data -> 0 <= len ->
  data + Z.min len 256 <= pkt_data_end pkt ->
  TcCache.fnv1a_hash pkt data len s =
  Some (fnv1a_fold (slice pkt data len), s,
        load_events data (Z.to_nat (Z.min len 256))).
Proof.
  intros Hd Hl Hb. unfold TcCache.fnv1a_hash.
  rewrite fnv1a_loop_run by lia.
  rewrite Z.add_0_r, Z.sub_0_r. unfold fnv1a_fold, slice.
  rewrite firstn_firstn.
  replace (Nat.min 256 (Z.to_nat len)) with (Z.to_nat (Z.min len 256)) by lia.
  reflexivity.
Qed.

(** ** Traces of the loops *)

Lemma guarded_loads (k : nat) :
  forall p hi t,
    0 <= p -> p + Z.of_nat k <= hi -> guarded hi t = true ->
    guarded hi (load_events p k ++ t) = true.
Proof.
  induction k as [|k IH]; intros p hi t Hp Hk Ht; [exact Ht|].
  unfold load_events; fold load_events. cbn [app guarded].
  apply andb_true_iff. split; [lia|]. apply IH; [lia|lia|exact Ht].
Qed.

Lemma guarded_scan (fuel : nat) :
  forall p l hi t,
    0 <= p -> p <= hi ->
    (forall hi', hi <= hi' ->
       p + Z.of_nat (length (until_delim (firstn fuel l))) <= hi' ->
       guarded hi' t = true) ->
    guarded hi (scan_events p fuel l ++ t) = true.
Proof.
  induction fuel as [|fuel IH]; intros p l hi t Hp Hhi Hk.
  - apply Hk; [lia|]. simpl. lia.
  - unfold scan_events; fold scan_events.
    destruct l as [|b l].
    + cbn [app guarded]. apply Hk; [lia|]. simpl. lia.
    + cbn [app guarded firstn until_delim] in *.
      apply andb_true_iff. split; [lia|].
      destruct (TcCache.is_delim (byte_val b)).
      * cbn [app]. apply Hk; simpl; lia.
      * apply IH; [lia|lia|]. intros hi' H1 H2. apply Hk; [lia|].
        cbn [length]. lia.
Qed.

Lemma loads_within_loads (pkt : packet) (k : nat) :
  forall p,
    0 <= p -> p + Z.of_nat k <= pkt_data_end pkt ->
    loads_within pkt (load_events p k) = true.
Proof.
  induction k as [|k IH]; intros p Hp Hk; [reflexivity|].
  unfold load_events; fold load_events. unfold loads_within in *.
  cbn [forallb]. apply andb_true_iff. split; [lia|]. apply IH; lia.
Qed.

Lemma loads_within_scan (pkt : packet) (fuel : nat) :
  forall p,
    0 <= p ->
    loads_within pkt (scan_events p fuel (skipn (Z.to_nat p) pkt)) = true.
Proof.
  induction fuel as [|fuel IH]; intros p Hp; [reflexivity|].
  unfold scan_events; fold scan_events.
  destruct (Z.lt_ge_cases p (pkt_data_end pkt)) as [Hlt|Hge].
  - destruct (skipn_in_buffer pkt p) as (b & Hb & _); [lia|]. rewrite Hb.
    unfold loads_within in *. cbn [forallb andb].
    apply andb_true_iff. split; [lia|].
    destruct (TcCache.is_delim (byte_val b)); [reflexivity|].
    apply IH. lia.
  - rewrite skipn_past_buffer by lia. reflexivity.
Qed.

Section LoopEventsAreQuiet.

(** A property of events that no comparison in bounds and no
    dereference has. *)
Variable f : event -> bool.
Hypothesis f_ge : forall q, f (EvGeEnd q false) = false.
Hypothesis f_load : forall p n, f (EvLoad p n) = false.

Lemma existsb_loads (k : nat) :
  forall p, existsb f (load_events p k) = false.
Proof.
  induction k as [|k IH]; intros p; [reflexivity|].
  unfold load_events; fold load_events. cbn [existsb].
  now rewrite f_load, IH.
Qed.

Lemma filter_loads (k : nat) :
  forall p, filter f (load_events p k) = [].
Proof.
  induction k as [|k IH]; intros p; [reflexivity|].
  unfold load_events; fold load_events. cbn [filter].
  now rewrite f_load, IH.
Qed.

Hypothesis f_ge_past : forall q, f (EvGeEnd q true) = false.

Lemma existsb_scan (fuel : nat) :
  forall p l, existsb f (scan_events p fuel l) = false.
Proof.
  induction fuel as [|fuel IH]; intros p l; [reflexivity|].
  unfold scan_events; fold scan_events.
  destruct l as [|b l]; cbn [existsb].
  - now rewrite f_ge_past.
  - rewrite f_ge, f_load.
    destruct (TcCache.is_delim (byte_val b)); [reflexivity|apply IH].
Qed.

Lemma filter_scan (fuel : nat) :
  forall p l, filter f (scan_events p fuel l) = [].
Proof.
  induction fuel as [|fuel IH]; intros p l; [reflexivity|].
  unfold scan_events; fold scan_events.
  destruct l as [|b l]; cbn [filter].
  - now rewrite f_ge_past.
  - rewrite f_ge, f_load.
    destruct (TcCache.is_delim (byte_val b)); [reflexivity|apply IH].
Qed.

End LoopEventsAreQuiet.

(** The scan makes at most one comparison that comes out past the end:
    the one that stops it, right after the bytes it kept. *)
Lemma ge_failed_at_scan (q : Z) (fuel : nat) :
  forall p l,
    ge_failed_at q (scan_events p fuel l) = true ->
    q = p + Z.of_nat (length (until_delim (firstn fuel l))).
Proof.
  induction fuel as [|fuel IH]; intros p l H; [discriminate|].
  unfold scan_events in H; fold scan_events in H.
  destruct l as [|b l].
  - unfold ge_failed_at in H. cbn [existsb] in H. simpl. lia.
  - unfold ge_failed_at in *. cbn [existsb firstn until_delim] in *.
    destruct (TcCache.is_delim (byte_val b)); [discriminate|].
    apply IH in H. cbn [length]. lia.
Qed.

(** ** Symbolic execution of the two hooks *)

#[local] Arguments firstn : simpl never.
#[local] Arguments skipn : simpl never.
#[local] Arguments until_delim : simpl never.
#[local] Arguments MAX_URL_LEN : simpl never.
#[local] Arguments Z.of_nat : simpl never.
#[local] Arguments Z.to_nat : simpl never.

(** The test at the head of a nest of matches. *)
Ltac head_disc t :=
  lazymatch t with
  | match ?x with _ => _ end => head_disc x
  | (match ?x with _ => _ end) _ => head_disc x
  | _ => t
  end.

(** Adds the ranges of the 4-bit header fields that occur. *)
Ltac pose_ranges :=
  repeat match goal with
  | |- context [ihl_of (byte_at ?pkt ?p)] =>
      lazymatch goal with
      | _ : 0 <= ihl_of (byte_at pkt p) <= 15 |- _ => fail
      | _ => pose proof (ihl_of_range (byte_at pkt p)
                           (proj1 (byte_at_range pkt p)))
      end
  | |- context [doff_of (byte_at ?pkt ?p)] =>
      lazymatch goal with
      | _ : 0 <= doff_of (byte_at pkt p) <= 15 |- _ => fail
      | _ => pose proof (doff_of_range (byte_at pkt p) (byte_at_range pkt p))
      end
  | _ : context [ihl_of (byte_at ?pkt ?p)] |- _ =>
      lazymatch goal with
      | _ : 0 <= ihl_of (byte_at pkt p) <= 15 |- _ => fail
      | _ => pose proof (ihl_of_range (byte_at pkt p)
                           (proj1 (byte_at_range pkt p)))
      end
  | _ : context [doff_of (byte_at ?pkt ?p)] |- _ =>
      lazymatch goal with
      | _ : 0 <= doff_of (byte_at pkt p) <= 15 |- _ => fail
      | _ => pose proof (doff_of_range (byte_at pkt p) (byte_at_range pkt p))
      end
  end.

Ltac absurd_branch :=
  exfalso; first [discriminate | congruence | pose_ranges; lia].

(** One step: case analysis on the test that decides how the run in [H]
    goes on; a branch the earlier tests exclude is closed. *)
Ltac step H :=
  rewrite ?read16_is_ip, ?ntohs_read16 in H;
  match type of H with
  | ?l = _ =>
      let d := head_disc l in
      lazymatch d with
      | Some _ => fail
      | None => fail
      | TcCache.url_scan _ _ _ _ _ _ => fail
      | TcCache.fnv1a_hash _ _ _ _ => fail
      | context [match ?c with _ => _ end] =>
          destruct c eqn:?; simpl in H; try absurd_branch
      | _ => destruct d eqn:?; simpl in H; try absurd_branch
      end
  end.

(** Exposes the tests and dereferences of a hook in [H]. *)
Ltac unfold_hook H :=
  cbv beta iota zeta delta
    [XdpRouter.xdp_router_prog XdpRouter.parse_eth XdpRouter.parse_ip
     XdpRouter.parse_tcp XdpRouter.incr XdpRouter.lookup_route
     XdpRouter.stats_max_entries
     TcCache.tc_http_cache TcCache.parse_http_start TcCache.incr
     TcCache.lookup_cache TcCache.bpf_ktime_get_ns TcCache.stats_max_entries
     array_lookup gt_end ge_end emit ret bind gets modify
     load8 load16 load32 deref pkt_data
     sizeof_ethhdr sizeof_iphdr sizeof_tcphdr ethhdr_h_proto iphdr_protocol
     iphdr_daddr tcphdr_dest tcphdr_doff_byte IPPROTO_TCP] in H;
  simpl in H;
  rewrite ?read16_is_ip, ?ntohs_read16 in H.

Ltac unfold_fields :=
  unfold tc_get_request, xdp_tcp_segment, tc_tcp_segment, port_allowed,
    url_token_len, url_token, url_off, payload_off, tcp_dport, tcp_doff,
    tcp_off, eth_type, ip_version, ip_proto, ip_ihl in *.

Lemma url_scan_start (S : Type) (pkt : packet) (us : Z) (s : S) :
  0 <= us ->
  TcCache.url_scan pkt us MAX_URL_LEN 0 0 s =
  Some (Z.of_nat (length (until_delim
               (firstn MAX_URL_LEN (skipn (Z.to_nat us) pkt)))),
        s, scan_events us MAX_URL_LEN (skipn (Z.to_nat us) pkt)).
Proof.
  intros Hus. rewrite url_scan_run by lia. now rewrite Z.add_0_r.
Qed.

(** The whole run of [tc_http_cache] on a GET request. *)
Lemma tc_get_run (bo : byte_order) (pkt : packet) (w : TcCache.world) :
  tc_get_request bo pkt = true ->
  TcCache.tc_http_cache bo pkt w =
  Some (TC_ACT_OK,
        {| TcCache.http_cache := TcCache.http_cache w;
           TcCache.stats := tc_probe_stats pkt w;
           TcCache.ktime := TcCache.ktime w |},
        tc_header_events pkt ++ tc_request_events pkt
        ++ tc_probe_events pkt w).
Proof.
  intros Hget.
  pose proof (url_token_len_bound pkt) as [Hk1 Hk2].
  pose proof (url_token_slice pkt) as Hsl.
  unfold tc_probe_events, tc_probe_stats, tc_request_events, tc_header_events,
    tc_key.
  remember (TcCache.tc_http_cache bo pkt w) as r eqn:H. symmetry in H.
  unfold_fields.
  unfold_hook H.
  pose_ranges.
  repeat (apply andb_true_iff in Hget; destruct Hget as [Hget ?]).
  repeat step H.
  all: rewrite url_scan_start in H by lia; simpl in H.
  all: step H.
  - subst r. simpl. rewrite app_nil_r. reflexivity.
  - rewrite fnv1a_hash_run in H by lia.
    rewrite Hsl in H. rewrite Z.min_l in H by lia. rewrite Nat2Z.id in H.
    simpl in H. repeat step H.
    all: subst r; simpl; rewrite <- ?app_assoc; reflexivity.
Qed.

(** On any other packet [tc_http_cache] stops before the URL scan, having
    touched the total only. *)
Lemma tc_other_run (bo : byte_order) (pkt : packet) (w : TcCache.world) :
  tc_get_request bo pkt = false ->
  exists t,
    TcCache.tc_http_cache bo pkt w =
    Some (TC_ACT_OK,
          {| TcCache.http_cache := TcCache.http_cache w;
             TcCache.stats := slot_incr 0 (TcCache.stats w);
             TcCache.ktime := TcCache.ktime w |},
          EvStatsLookup 0 :: EvSlotIncr 0 :: t)
    /\ has_lookup t = false
    /\ filter is_incr t = []
    /\ guarded 0 t = true
    /\ loads_within pkt t = true
    /\ (forall q, ge_failed_at q t = false).
Proof.
  intros Hget.
  remember (TcCache.tc_http_cache bo pkt w) as r eqn:H. symmetry in H.
  unfold_fields.
  unfold_hook H.
  repeat step H.
  all: try (subst r; eexists; split; [reflexivity|];
            simpl; repeat split; try reflexivity; pose_ranges; lia).
Qed.

(** The whole run of [xdp_router_prog] on an IPv4/TCP segment. *)
Lemma xdp_segment_run (bo : byte_order) (pkt : packet) (w : XdpRouter.world) :
  xdp_tcp_segment pkt = true ->
  XdpRouter.xdp_router_prog bo pkt w =
  (let r := XdpRouter.route_map w (xdp_key bo pkt) in
   let s1 := upd (XdpRouter.stats w) 0
               (bump F_packets_total (XdpRouter.stats w 0)) in
   Some (xdp_verdict r,
         {| XdpRouter.route_map := XdpRouter.route_map w;
            XdpRouter.stats := upd s1 0 (bump (xdp_counter r) (s1 0)) |},
         xdp_header_events pkt
         ++ [EvRouteLookup (xdp_key bo pkt); EvFieldIncr (xdp_counter r)])).
Proof.
  intros Hseg.
  remember (XdpRouter.xdp_router_prog bo pkt w) as r eqn:H. symmetry in H.
  unfold xdp_header_events, xdp_verdict, xdp_counter, xdp_key.
  unfold_fields.
  unfold_hook H.
  repeat step H.
  all: subst r; simpl; reflexivity.
Qed.

(** On any other packet [xdp_router_prog] passes before the route lookup,
    having touched the total only. *)
Lemma xdp_other_run (bo : byte_order) (pkt : packet) (w : XdpRouter.world) :
  xdp_tcp_segment pkt = false ->
  exists t,
    XdpRouter.xdp_router_prog bo pkt w =
    Some (XDP_PASS,
          {| XdpRouter.route_map := XdpRouter.route_map w;
             XdpRouter.stats :=
               upd (XdpRouter.stats w) 0
                 (bump F_packets_total (XdpRouter.stats w 0)) |},
          EvStatsLookup 0 :: EvFieldIncr F_packets_total :: t)
    /\ has_lookup t = false
    /\ filter is_incr t = []
    /\ guarded 0 t = true
    /\ loads_within pkt t = true.
Proof.
  intros Hseg.
  remember (XdpRouter.xdp_router_prog bo pkt w) as r eqn:H. symmetry in H.
  unfold_fields.
  unfold_hook H.
  repeat step H.
  all: subst r; eexists; split; [reflexivity|];
       simpl; repeat split; try reflexivity; pose_ranges; lia.
Qed.

Lemma upd_same (V : Type) (m : Z -> V) (k : Z) (v : V) : upd m k v k = v.
Proof. unfold upd. now rewrite Z.eqb_refl. Qed.

Lemma tc_segment_of_get (bo : byte_order) (pkt : packet) :
  tc_get_request bo pkt = true ->
  tc_tcp_segment pkt = true
  /\ 0 <= url_off pkt <= pkt_data_end pkt
  /\ tcp_off pkt + 20 <= pkt_data_end pkt.
Proof.
  intros H. pose proof (ip_ihl_range pkt). pose proof (tcp_doff_range pkt).
  unfold tc_get_request in H. unfold url_off, payload_off, tcp_off in *.
  do 3 (apply andb_true_iff in H; destruct H as [H ?]).
  split; [exact H|]. unfold tc_tcp_segment, tcp_off in H.
  repeat (apply andb_true_iff in H; destruct H as [H ?]). lia.
Qed.

Ltac flia :=
  unfold url_token_len, url_token, url_off, payload_off, tcp_off in *; lia.

(** ** The claims *)

(** C1, as amended.  Neither hook ever dereferences packet memory outside
    the buffer, whatever the buffer holds and however short it is: the run
    ends without a fault, every dereference lies inside the buffer and is
    covered by an earlier comparison against [data_end] that came out in
    bounds.  When the comparison guarding the Ethernet, IP or TCP header or
    the 4-byte method token comes out past the end, the hook returns the
    pass-through verdict and no route or cache lookup is made.  When the
    comparison guarding a URL byte comes out past the end, the scan stops
    there: the cache is looked up exactly when at least one URL byte had
    been scanned before. *)
Theorem hooks_stay_in_bounds (bo : byte_order) (pkt : packet)
    (wx : XdpRouter.world) (wt : TcCache.world) :
  (exists v w' t,
     XdpRouter.xdp_router_prog bo pkt wx = Some (v, w', t)
     /\ guarded 0 t = true
     /\ loads_within pkt t = true
     /\ (gt_failed t = true -> v = XDP_PASS /\ has_lookup t = false))
  /\
  (exists w' t,
     TcCache.tc_http_cache bo pkt wt = Some (TC_ACT_OK, w', t)
     /\ guarded 0 t = true
     /\ loads_within pkt t = true
     /\ (gt_failed t = true -> has_lookup t = false)
     /\ (forall q, ge_failed_at q t = true ->
                   has_lookup t = negb (q =? url_off pkt))).
Proof.
  split.
  - destruct (xdp_tcp_segment pkt) eqn:Hseg.
    + rewrite (xdp_segment_run bo pkt wx Hseg). cbv zeta.
      do 3 eexists. split; [reflexivity|].
      unfold xdp_header_events. unfold_fields. pose_ranges.
      repeat (apply andb_true_iff in Hseg; destruct Hseg as [Hseg ?]).
      simpl. repeat split; try lia; try discriminate.
    + destruct (xdp_other_run bo pkt wx Hseg) as (t & Hr & Hl & _ & Hg & Hw).
      rewrite Hr. do 3 eexists. split; [reflexivity|].
      simpl. repeat split; assumption.
  - destruct (tc_get_request bo pkt) eqn:Hget.
    + rewrite (tc_get_run bo pkt wt Hget).
      destruct (tc_segment_of_get bo pkt Hget) as (Hseg & Hus & Htcp).
      pose proof (url_token_len_bound pkt) as [Hk1 Hk2].
      specialize (Hk2 (proj2 Hus)).
      pose proof (ip_ihl_range pkt) as Hh.
      pose proof (tcp_doff_range pkt) as Hd.
      do 2 eexists. split; [reflexivity|].
      unfold tc_header_events, tc_request_events, tc_probe_events.
      unfold has_lookup, gt_failed, ge_failed_at, loads_within.
      rewrite !existsb_app, !forallb_app.
      rewrite !existsb_scan by (intros; reflexivity).
      destruct (url_token_len pkt =? 0) eqn:Hz;
        [|rewrite !existsb_app, !forallb_app;
          rewrite !existsb_loads by (intros; reflexivity);
          destruct (TcCache.http_cache wt (tc_key pkt)) as [cached|];
          [destruct (u64 (TcCache.ktime wt - timestamp cached) <? CACHE_TTL_NS)
          |]].
      all: repeat split.
      all: try discriminate.
      all: try (simpl; repeat (apply andb_true_iff; split); try flia;
                apply guarded_scan; [flia|flia|]; intros hi' Hhi Hk;
                first [reflexivity
                      |apply guarded_loads; [flia|flia|reflexivity]]).
      all: try (simpl; repeat (apply andb_true_iff; split); try flia;
                try reflexivity;
                first [apply loads_within_scan; flia
                      |apply loads_within_loads; flia]).
      all: intros q Hq; rewrite !existsb_app in Hq.
      all: rewrite ?existsb_loads in Hq by (intros; reflexivity).
      all: simpl in *; rewrite ?orb_false_r in Hq.
      all: apply ge_failed_at_scan in Hq.
      all: rewrite ?orb_true_r; symmetry.
      all: first [apply negb_true_iff | apply negb_false_iff]; flia.
    + destruct (tc_other_run bo pkt wt Hget)
        as (t & Hr & Hl & _ & Hg & Hw & Hge).
      rewrite Hr. do 2 eexists. split; [reflexivity|].
      simpl. repeat split; try assumption.
      * intros _. exact Hl.
      * intros q Hq. unfold ge_failed_at in *. simpl in Hq.
        rewrite Hge in Hq. discriminate.
Qed.

(** The premise on the URL comparison is met by the request cut off after
    [GET /a]. *)
Lemma hooks_stay_in_bounds_witness :
  exists w' t,
    TcCache.tc_http_cache BigEndian (truncated_url_packet BigEndian)
      (tc_world None 0)
    = Some (TC_ACT_OK, w', t)
    /\ guarded 0 t = true
    /\ loads_within (truncated_url_packet BigEndian) t = true
    /\ ge_failed_at 60 t = true
    /\ has_lookup t = negb (60 =? url_off (truncated_url_packet BigEndian)).
Proof.
  destruct (hooks_stay_in_bounds BigEndian (truncated_url_packet BigEndian)
              (xdp_world None zero_stats) (tc_world None 0))
    as (_ & w' & t & Hr & Hg & Hw & _ & Hge).
  assert (Hf : ge_failed_at 60 t = true).
  { vm_compute in Hr. injection Hr as _ <-. reflexivity. }
  exists w', t. repeat split; try assumption.
  apply Hge. exact Hf.
Defined.

(** C1, as stated, fails for the comparison that guards a URL byte.  The
    buffer below ends after the GET token and [/a]: the comparison for the
    third URL byte, at offset 60, comes out past the end, and the hook
    goes on to hash the two bytes it has and to look the cache up.  This
    is so on a target of either byte order. *)
Lemma url_check_failure_reaches_lookup :
  pkt_data_end (truncated_url_packet BigEndian) = 60
  /\ tc_view (TcCache.tc_http_cache BigEndian
                (truncated_url_packet BigEndian) (tc_world None 0))
     = Some (TC_ACT_OK, [1; 0; 0; 0], truncated_url_trace)
  /\ pkt_data_end (truncated_url_packet LittleEndian) = 60
  /\ tc_view (TcCache.tc_http_cache LittleEndian
                (truncated_url_packet LittleEndian) (tc_world None 0))
     = Some (TC_ACT_OK, [1; 0; 0; 0], truncated_url_trace)
  /\ ge_failed_at 60 truncated_url_trace = true
  /\ has_lookup truncated_url_trace = true.
Proof. vm_compute. repeat split. Qed.

(** C2, as amended.  For an IPv4/TCP packet whose route lookup returns an
    entry, the verdict follows the stored action (1 drops, 2 transmits the
    packet back out, anything else passes) and exactly one counter besides
    the total is incremented, once: [packets_dropped] for drop and
    [packets_passed] for redirect as well as for pass.  There is no counter
    of its own for redirect.  The counters are given by their values: the
    total and the counter of the action are one more than before, modulo
    2^64, the two others are what they were. *)
Theorem xdp_route_hit_dispatch (bo : byte_order) (pkt : packet)
    (w : XdpRouter.world) (route : route_value) :
  xdp_tcp_segment pkt = true ->
  XdpRouter.route_map w (xdp_key bo pkt) = Some route ->
  exists v f w' t,
    XdpRouter.xdp_router_prog bo pkt w = Some (v, w', t)
    /\ (v, f) = (if action route =? 1 then (XDP_DROP, F_packets_dropped)
                 else if action route =? 2 then (XDP_TX, F_packets_passed)
                 else (XDP_PASS, F_packets_passed))
    /\ packets_total (XdpRouter.stats w' 0)
       = (packets_total (XdpRouter.stats w 0) + 1) mod 2 ^ 64
    /\ packets_dropped (XdpRouter.stats w' 0)
       = (if action route =? 1
          then (packets_dropped (XdpRouter.stats w 0) + 1) mod 2 ^ 64
          else packets_dropped (XdpRouter.stats w 0))
    /\ packets_passed (XdpRouter.stats w' 0)
       = (if action route =? 1
          then packets_passed (XdpRouter.stats w 0)
          else (packets_passed (XdpRouter.stats w 0) + 1) mod 2 ^ 64)
    /\ cache_hits (XdpRouter.stats w' 0) = cache_hits (XdpRouter.stats w 0)
    /\ (forall k, k <> 0 -> XdpRouter.stats w' k = XdpRouter.stats w k)
    /\ filter is_incr t = [EvFieldIncr F_packets_total; EvFieldIncr f]
    /\ filter is_lookup t = [EvRouteLookup (xdp_key bo pkt)].
Proof.
  intros Hseg Hroute.
  rewrite (xdp_segment_run bo pkt w Hseg). cbv zeta. rewrite Hroute.
  unfold xdp_verdict, xdp_counter, xdp_header_events.
  exists (if action route =? 1 then XDP_DROP
          else if action route =? 2 then XDP_TX else XDP_PASS).
  exists (if action route =? 1 then F_packets_dropped else F_packets_passed).
  do 2 eexists. split; [reflexivity|].
  cbn [XdpRouter.stats]. repeat match goal with
         | |- context [upd ?m 0 ?v 0] => change (upd m 0 v 0) with v
         end.
  assert (Hother : forall (a b : stats_value) k, k <> 0 ->
            upd (upd (XdpRouter.stats w) 0 a) 0 b k = XdpRouter.stats w k).
  { intros a b k Hk. unfold upd.
    destruct (Z.eqb_spec k 0); [contradiction|reflexivity]. }
  destruct (action route =? 1); [|destruct (action route =? 2)];
    (repeat split; try reflexivity; intros k Hk; apply Hother; exact Hk).
Qed.

(** A drop entry and a redirect entry for [plain_segment], from counters
    that have counted five packets. *)
Lemma xdp_route_hit_dispatch_witness :
  xdp_tcp_segment plain_segment = true
  /\ (forall a,
        XdpRouter.route_map
          (xdp_world (route_with a)
             {| packets_total := 5; packets_passed := 3;
                packets_dropped := 2; cache_hits := 0 |})
          (xdp_key LittleEndian plain_segment) = route_with a)
  /\ (exists w' t,
        XdpRouter.xdp_router_prog LittleEndian plain_segment
          (xdp_world (route_with 1)
             {| packets_total := 5; packets_passed := 3;
                packets_dropped := 2; cache_hits := 0 |})
        = Some (XDP_DROP, w', t)
        /\ XdpRouter.stats w' 0
           = {| packets_total := 6; packets_passed := 3;
                packets_dropped := 3; cache_hits := 0 |}
        /\ filter is_incr t
           = [EvFieldIncr F_packets_total; EvFieldIncr F_packets_dropped])
  /\ (exists w' t,
        XdpRouter.xdp_router_prog LittleEndian plain_segment
          (xdp_world (route_with 2)
             {| packets_total := 5; packets_passed := 3;
                packets_dropped := 2; cache_hits := 0 |})
        = Some (XDP_TX, w', t)
        /\ XdpRouter.stats w' 0
           = {| packets_total := 6; packets_passed := 4;
                packets_dropped := 2; cache_hits := 0 |}
        /\ filter is_incr t
           = [EvFieldIncr F_packets_total; EvFieldIncr F_packets_passed]).
Proof.
  split; [reflexivity|]. split; [reflexivity|].
  split.
  - destruct (xdp_route_hit_dispatch LittleEndian plain_segment
                (xdp_world (route_with 1)
                   {| packets_total := 5; packets_passed := 3;
                      packets_dropped := 2; cache_hits := 0 |})
                {| action := 1; backend_ip := 0; backend_port := 0 |}
                eq_refl eq_refl)
      as (v & f & w' & t & Hr & Hvf & Ht & Hd & Hp & Hc & _ & Hi & _).
    injection Hvf as -> ->.
    exists w', t. split; [exact Hr|]. split; [|exact Hi].
    destruct (XdpRouter.stats w' 0); cbn in Ht, Hd, Hp, Hc.
    rewrite Ht, Hd, Hp, Hc. reflexivity.
  - destruct (xdp_route_hit_dispatch LittleEndian plain_segment
                (xdp_world (route_with 2)
                   {| packets_total := 5; packets_passed := 3;
                      packets_dropped := 2; cache_hits := 0 |})
                {| action := 2; backend_ip := 0; backend_port := 0 |}
                eq_refl eq_refl)
      as (v & f & w' & t & Hr & Hvf & Ht & Hd & Hp & Hc & _ & Hi & _).
    injection Hvf as -> ->.
    exists w', t. split; [exact Hr|]. split; [|exact Hi].
    destruct (XdpRouter.stats w' 0); cbn in Ht, Hd, Hp, Hc.
    rewrite Ht, Hd, Hp, Hc. reflexivity.
Defined.

(** C2, as stated, fails for redirect: on a route entry with action 2 the
    hook returns [XDP_TX] and increments [packets_passed], the very counter
    it increments for a pass entry; the counters after a redirect and after
    a pass are the same. *)
Lemma redirect_counts_as_passed :
  xdp_view (XdpRouter.xdp_router_prog LittleEndian plain_segment
              (xdp_world (route_with 2) zero_stats))
  = Some (XDP_TX,
          {| packets_total := 1; packets_passed := 1;
             packets_dropped := 0; cache_hits := 0 |},
          plain_segment_trace F_packets_passed)
  /\
  xdp_view (XdpRouter.xdp_router_prog LittleEndian plain_segment
              (xdp_world (route_with 0) zero_stats))
  = Some (XDP_PASS,
          {| packets_total := 1; packets_passed := 1;
             packets_dropped := 0; cache_hits := 0 |},
          plain_segment_trace F_packets_passed).
Proof. split; vm_compute; reflexivity. Qed.

(** C10.  For a route entry whose action is neither 1 nor 2 (0 and every
    other value alike) the hook increments [packets_passed] once, beside
    the total, and returns [XDP_PASS]; the outcome does not depend on the
    action value, so it is the one of the explicit pass action 0.  The
    counters are given by their values: [packets_passed] and the total are
    one more than before, modulo 2^64, and [packets_dropped] and
    [cache_hits] are what they were. *)
Theorem xdp_other_actions_pass (bo : byte_order) (pkt : packet)
    (w : XdpRouter.world) (route : route_value) :
  xdp_tcp_segment pkt = true ->
  XdpRouter.route_map w (xdp_key bo pkt) = Some route ->
  action route <> 1 -> action route <> 2 ->
  exists w',
    XdpRouter.xdp_router_prog bo pkt w =
    Some (XDP_PASS, w',
          xdp_header_events pkt
          ++ [EvRouteLookup (xdp_key bo pkt); EvFieldIncr F_packets_passed])
    /\ packets_passed (XdpRouter.stats w' 0)
       = (packets_passed (XdpRouter.stats w 0) + 1) mod 2 ^ 64
    /\ packets_total (XdpRouter.stats w' 0)
       = (packets_total (XdpRouter.stats w 0) + 1) mod 2 ^ 64
    /\ packets_dropped (XdpRouter.stats w' 0)
       = packets_dropped (XdpRouter.stats w 0)
    /\ cache_hits (XdpRouter.stats w' 0) = cache_hits (XdpRouter.stats w 0)
    /\ XdpRouter.route_map w' = XdpRouter.route_map w
    /\ (forall k, k <> 0 -> XdpRouter.stats w' k = XdpRouter.stats w k)
    /\ filter is_incr
         (xdp_header_events pkt
          ++ [EvRouteLookup (xdp_key bo pkt); EvFieldIncr F_packets_passed])
       = [EvFieldIncr F_packets_total; EvFieldIncr F_packets_passed].
Proof.
  intros Hseg Hroute H1 H2.
  rewrite (xdp_segment_run bo pkt w Hseg). cbv zeta. rewrite Hroute.
  unfold xdp_verdict, xdp_counter.
  destruct (Z.eqb_spec (action route) 1) as [E|_]; [contradiction|].
  destruct (Z.eqb_spec (action route) 2) as [E|_]; [contradiction|].
  eexists. split; [reflexivity|].
  cbn [XdpRouter.stats XdpRouter.route_map]. repeat match goal with
         | |- context [upd ?m 0 ?v 0] => change (upd m 0 v 0) with v
         end.
  repeat split.
  intros k Hk. unfold upd.
  destruct (Z.eqb_spec k 0); [contradiction|reflexivity].
Qed.

(** An entry with the out-of-range action 7 and one with the pass action
    0 leave the same verdict, trace and counters. *)
Lemma xdp_other_actions_pass_witness :
  xdp_tcp_segment plain_segment = true
  /\ (forall a,
        XdpRouter.route_map
          (xdp_world (route_with a)
             {| packets_total := 5; packets_passed := 3;
                packets_dropped := 2; cache_hits := 0 |})
          (xdp_key BigEndian plain_segment) = route_with a)
  /\ 7 <> 1 /\ 7 <> 2 /\ 0 <> 1 /\ 0 <> 2
  /\ exists w7 w0 t,
       XdpRouter.xdp_router_prog BigEndian plain_segment
         (xdp_world (route_with 7)
            {| packets_total := 5; packets_passed := 3;
               packets_dropped := 2; cache_hits := 0 |})
       = Some (XDP_PASS, w7, t)
       /\ XdpRouter.xdp_router_prog BigEndian plain_segment
            (xdp_world (route_with 0)
               {| packets_total := 5; packets_passed := 3;
                  packets_dropped := 2; cache_hits := 0 |})
          = Some (XDP_PASS, w0, t)
       /\ XdpRouter.stats w7 0
          = {| packets_total := 6; packets_passed := 4;
               packets_dropped := 2; cache_hits := 0 |}
       /\ XdpRouter.stats w0 0 = XdpRouter.stats w7 0
       /\ filter is_incr t
          = [EvFieldIncr F_packets_total; EvFieldIncr F_packets_passed].
Proof.
  split; [reflexivity|]. split; [reflexivity|].
  split; [discriminate|]. split; [discriminate|].
  split; [discriminate|]. split; [discriminate|].
  destruct (xdp_other_actions_pass BigEndian plain_segment
              (xdp_world (route_with 7)
                 {| packets_total := 5; packets_passed := 3;
                    packets_dropped := 2; cache_hits := 0 |})
              {| action := 7; backend_ip := 0; backend_port := 0 |}
              eq_refl eq_refl)
    as (w7 & Hr7 & Hp7 & Ht7 & Hd7 & Hc7 & _ & _ & Hi);
    [discriminate|discriminate|].
  destruct (xdp_other_actions_pass BigEndian plain_segment
              (xdp_world (route_with 0)
                 {| packets_total := 5; packets_passed := 3;
                    packets_dropped := 2; cache_hits := 0 |})
              {| action := 0; backend_ip := 0; backend_port := 0 |}
              eq_refl eq_refl)
    as (w0 & Hr0 & Hp0 & Ht0 & Hd0 & Hc0 & _ & _ & _);
    [discriminate|discriminate|].
  exists w7, w0. eexists.
  split; [exact Hr7|]. split; [exact Hr0|].
  split; [|split; [|exact Hi]].
  - destruct (XdpRouter.stats w7 0); cbn in Hp7, Ht7, Hd7, Hc7.
    rewrite Hp7, Ht7, Hd7, Hc7. reflexivity.
  - destruct (XdpRouter.stats w7 0), (XdpRouter.stats w0 0).
    cbn in Hp7, Ht7, Hd7, Hc7, Hp0, Ht0, Hd0, Hc0.
    rewrite Hp7, Ht7, Hd7, Hc7, Hp0, Ht0, Hd0, Hc0. reflexivity.
Defined.

Lemma u64_small (x : Z) : 0 <= x < 2 ^ 64 -> u64 x = x.
Proof. intros H. unfold u64. apply Z.mod_small. exact H. Qed.

Lemma xdp_run_counts (bo : byte_order) (pkts : list packet) :
  forall w,
    counters_within (XdpRouter.stats w 0) ->
    packets_total (XdpRouter.stats w 0) + Z.of_nat (length pkts) < 2 ^ 64 ->
    exists w',
      xdp_run bo pkts w = Some w'
      /\ packets_total (XdpRouter.stats w' 0)
         = packets_total (XdpRouter.stats w 0) + Z.of_nat (length pkts)
      /\ counters_within (XdpRouter.stats w' 0).
Proof.
  induction pkts as [|pkt pkts IH]; intros w Hw Hlen.
  - exists w. simpl. repeat split; try apply Hw. cbn [length Z.of_nat]. lia.
  - cbn [xdp_run]. cbn [length] in Hlen. rewrite Nat2Z.inj_succ in Hlen.
    destruct Hw as (H0 & H1 & H2 & H3 & H4).
    assert (Hstep : exists v w1 t,
               XdpRouter.xdp_router_prog bo pkt w = Some (v, w1, t)
               /\ packets_total (XdpRouter.stats w1 0)
                  = packets_total (XdpRouter.stats w 0) + 1
               /\ counters_within (XdpRouter.stats w1 0)).
    { destruct (xdp_tcp_segment pkt) eqn:Hseg.
      - rewrite (xdp_segment_run bo pkt w Hseg). cbv zeta.
        do 3 eexists. split; [reflexivity|].
        cbn [XdpRouter.stats]. rewrite !upd_same.
        unfold counters_within.
        unfold xdp_counter.
        destruct (XdpRouter.route_map w (xdp_key bo pkt)) as [route|];
          [destruct (action route =? 1)|];
          unfold bump; cbn [packets_total
          packets_passed packets_dropped cache_hits];
          rewrite !u64_small by lia; lia.
      - destruct (xdp_other_run bo pkt w Hseg) as (t & Hr & _).
        rewrite Hr. do 3 eexists. split; [reflexivity|].
        cbn [XdpRouter.stats]. rewrite !upd_same.
        unfold counters_within, bump; cbn [packets_total
          packets_passed packets_dropped cache_hits].
        rewrite !u64_small by lia. lia. }
    destruct Hstep as (v & w1 & t & Hr & Ht & Hc). rewrite Hr.
    destruct (IH w1 Hc) as (w' & Hrun & Htot & Hc'); [lia|].
    exists w'. split; [exact Hrun|]. split; [|exact Hc'].
    cbn [length]. rewrite Nat2Z.inj_succ. lia.
Qed.

(** C3.  Every invocation of the receive hook increments [packets_total]
    exactly once, and does so first: the increment directly follows the
    lookup of the statistics slot and precedes every comparison and every
    dereference of the packet, so that truncated and non-IPv4 frames are
    counted like all others.  The total bounds the sum of the other
    counters: an invocation preserves that bound, and a CPU that starts
    from zeroed counters has, after any sequence of packets, a total
    equal to their number and at least the sum of the other counters. *)
Theorem xdp_total_counted_first (bo : byte_order) :
  (forall (pkt : packet) (w : XdpRouter.world),
     exists v w' t,
       XdpRouter.xdp_router_prog bo pkt w =
       Some (v, w', EvStatsLookup 0 :: EvFieldIncr F_packets_total :: t)
       /\ filter (is_field_incr F_packets_total) t = []
       /\ packets_total (XdpRouter.stats w' 0)
          = u64 (packets_total (XdpRouter.stats w 0) + 1)
       /\ (counters_within (XdpRouter.stats w 0) ->
           packets_total (XdpRouter.stats w 0) + 1 < 2 ^ 64 ->
           counters_within (XdpRouter.stats w' 0)))
  /\
  (forall (pkts : list packet) (w : XdpRouter.world),
     XdpRouter.stats w 0 = zero_stats ->
     Z.of_nat (length pkts) < 2 ^ 64 ->
     exists w',
       xdp_run bo pkts w = Some w'
       /\ packets_total (XdpRouter.stats w' 0) = Z.of_nat (length pkts)
       /\ packets_passed (XdpRouter.stats w' 0)
          + packets_dropped (XdpRouter.stats w' 0)
          + cache_hits (XdpRouter.stats w' 0)
          <= packets_total (XdpRouter.stats w' 0)).
Proof.
  split.
  - intros pkt w. destruct (xdp_tcp_segment pkt) eqn:Hseg.
    + rewrite (xdp_segment_run bo pkt w Hseg). cbv zeta.
      unfold xdp_header_events.
      do 3 eexists. split; [reflexivity|].
      cbn [XdpRouter.stats]. rewrite !upd_same.
      split; [|split].
      * destruct (XdpRouter.route_map w (xdp_key bo pkt)) as [route|];
          [|reflexivity].
        unfold xdp_counter. destruct (action route =? 1); reflexivity.
      * unfold xdp_counter.
        destruct (XdpRouter.route_map w (xdp_key bo pkt)) as [route|];
          [destruct (action route =? 1)|]; reflexivity.
      * intros (H0 & H1 & H2 & H3 & H4) Hlt. unfold counters_within.
        unfold xdp_counter.
        destruct (XdpRouter.route_map w (xdp_key bo pkt)) as [route|];
          [destruct (action route =? 1)|];
          unfold bump; cbn [packets_total
          packets_passed packets_dropped cache_hits];
          rewrite !u64_small by lia; lia.
    + destruct (xdp_other_run bo pkt w Hseg) as (t & Hr & _ & Hi & _).
      rewrite Hr. do 3 eexists. split; [reflexivity|].
      cbn [XdpRouter.stats]. rewrite !upd_same.
      split; [|split].
      * clear Hr. induction t as [|e t IH]; [reflexivity|].
        cbn [filter] in *. destruct e; cbn [is_incr] in Hi;
          try discriminate; cbn [is_field_incr]; apply IH; exact Hi.
      * reflexivity.
      * intros (H0 & H1 & H2 & H3 & H4) Hlt.
        unfold counters_within, bump; cbn [packets_total
          packets_passed packets_dropped cache_hits].
        rewrite !u64_small by lia. lia.
  - intros pkts w Hz Hlen.
    destruct (xdp_run_counts bo pkts w) as (w' & Hrun & Htot & Hc).
    + rewrite Hz. unfold counters_within, zero_stats. simpl. lia.
    + rewrite Hz. simpl. lia.
    + exists w'. split; [exact Hrun|]. rewrite Hz in Htot. simpl in Htot.
      split; [lia|]. destruct Hc as (H0 & H1 & H2 & H3 & H4). lia.
Qed.

(** Three frames from zeroed counters: a segment, a bare Ethernet header
    and an empty buffer. *)
Lemma xdp_total_counted_first_witness :
  XdpRouter.stats (xdp_world None zero_stats) 0 = zero_stats
  /\ Z.of_nat (length [plain_segment; sample_eth; []]) < 2 ^ 64
  /\ exists w',
       xdp_run LittleEndian [plain_segment; sample_eth; []]
         (xdp_world None zero_stats) = Some w'
       /\ packets_total (XdpRouter.stats w' 0)
          = Z.of_nat (length [plain_segment; sample_eth; []])
       /\ packets_passed (XdpRouter.stats w' 0)
          + packets_dropped (XdpRouter.stats w' 0)
          + cache_hits (XdpRouter.stats w' 0)
          <= packets_total (XdpRouter.stats w' 0).
Proof.
  split; [reflexivity|]. split; [reflexivity|].
  apply (proj2 (xdp_total_counted_first LittleEndian)
           [plain_segment; sample_eth; []] (xdp_world None zero_stats));
    reflexivity.
Defined.

(** The cache is looked up for GET requests with a non-empty URL token
    and for no other packet. *)
Lemma tc_lookup_needs_get_request (bo : byte_order) (pkt : packet)
    (w w' : TcCache.world) (v : tc_action) (t : list event) :
  TcCache.tc_http_cache bo pkt w = Some (v, w', t) ->
  has_lookup t = true ->
  tc_get_request bo pkt = true /\ url_token_len pkt <> 0.
Proof.
  intros Hr Hl. destruct (tc_get_request bo pkt) eqn:Hget.
  - split; [reflexivity|]. intros Hz.
    rewrite (tc_get_run bo pkt w Hget) in Hr. injection Hr as _ _ <-.
    revert Hl. unfold tc_probe_events. rewrite Hz.
    change (0 =? 0) with true. cbv iota. rewrite app_nil_r.
    unfold has_lookup, tc_header_events, tc_request_events.
    cbn [existsb is_lookup orb app].
    rewrite existsb_scan by (intros; reflexivity).
    discriminate.
  - destruct (tc_other_run bo pkt w Hget) as (t0 & Hr0 & Hl0 & _).
    rewrite Hr0 in Hr. injection Hr as _ _ <-.
    cbn [has_lookup existsb is_lookup orb] in Hl.
    unfold has_lookup in Hl0. rewrite Hl0 in Hl. discriminate.
Qed.

Lemma filter_tc_get_events (f : event -> bool) (pkt : packet)
    (tail : list event) :
  (forall q b, f (EvGeEnd q b) = false) ->
  (forall q b, f (EvGtEnd q b) = false) ->
  (forall p n, f (EvLoad p n) = false) ->
  f (EvStatsLookup 0) = false ->
  filter f (tc_header_events pkt ++ tc_request_events pkt
            ++ load_events (url_off pkt) (length (url_token pkt)) ++ tail)
  = (if f (EvSlotIncr 0) then [EvSlotIncr 0] else []) ++ filter f tail.
Proof.
  intros Hge Hgt Hload Hst.
  unfold tc_header_events, tc_request_events.
  rewrite !filter_app.
  rewrite filter_scan by (intros; apply Hge || apply Hload).
  rewrite filter_loads by (intros; apply Hge || apply Hload).
  cbn [filter app]. rewrite Hst, !Hgt, !Hload.
  destruct (f (EvSlotIncr 0)); reflexivity.
Qed.

(** C4.  When [tc_http_cache] finds the key of a GET request in the
    cache, the entry counts as fresh exactly when the 64-bit difference
    between the clock and the entry's timestamp is below 60,000,000,000;
    for an entry written no later than the clock reading that is the plain
    difference, and a difference equal to the TTL is stale.  A fresh hit
    increments slot 1 of [stats], the hit counter, once: its value is one
    more than before, modulo 2^64.  A stale hit and a miss leave the hit
    counter at its value.  In every case slot 0, the total, is one more
    than before and no other slot changes. *)
Theorem tc_cache_hit_freshness (bo : byte_order) (pkt : packet)
    (w : TcCache.world) :
  tc_get_request bo pkt = true ->
  url_token_len pkt <> 0 ->
  exists w' t,
    TcCache.tc_http_cache bo pkt w = Some (TC_ACT_OK, w', t)
    /\ filter is_lookup t = [EvCacheLookup (tc_key pkt)]
    /\ TcCache.stats w' 0 = (TcCache.stats w 0 + 1) mod 2 ^ 64
    /\ (forall k, k <> 0 -> k <> 1 ->
                  TcCache.stats w' k = TcCache.stats w k)
    /\ TcCache.http_cache w' = TcCache.http_cache w
    /\ match TcCache.http_cache w (tc_key pkt) with
       | Some cached =>
           let age := (TcCache.ktime w - timestamp cached) mod 2 ^ 64 in
           (0 <= timestamp cached <= TcCache.ktime w ->
            TcCache.ktime w < 2 ^ 64 ->
            age = TcCache.ktime w - timestamp cached)
           /\ (TcCache.ktime w - timestamp cached = 60000000000 ->
               age = 60000000000)
           /\ (age < 60000000000 ->
               TcCache.stats w' 1 = (TcCache.stats w 1 + 1) mod 2 ^ 64
               /\ filter is_incr t = [EvSlotIncr 0; EvSlotIncr 1])
           /\ (60000000000 <= age ->
               TcCache.stats w' 1 = TcCache.stats w 1
               /\ filter is_incr t = [EvSlotIncr 0])
       | None =>
           TcCache.stats w' 1 = TcCache.stats w 1
           /\ filter is_incr t = [EvSlotIncr 0]
       end.
Proof.
  intros Hget Hlen.
  rewrite (tc_get_run bo pkt w Hget).
  do 2 eexists. split; [reflexivity|].
  unfold tc_probe_events, tc_probe_stats.
  apply Z.eqb_neq in Hlen. rewrite Hlen.
  rewrite !filter_tc_get_events by reflexivity.
  cbn [is_lookup is_incr app filter TcCache.stats TcCache.http_cache].
  assert (H0 : forall st : Z -> Z,
            slot_incr 1 (slot_incr 0 st) 0 = (st 0 + 1) mod 2 ^ 64
            /\ slot_incr 0 st 0 = (st 0 + 1) mod 2 ^ 64
            /\ slot_incr 1 (slot_incr 0 st) 1 = (st 1 + 1) mod 2 ^ 64
            /\ slot_incr 0 st 1 = st 1) by (intros st; repeat split).
  assert (Hk : forall (st : Z -> Z) k, k <> 0 -> k <> 1 ->
            slot_incr 1 (slot_incr 0 st) k = st k
            /\ slot_incr 0 st k = st k).
  { intros st k Hk0 Hk1. unfold slot_incr, upd.
    destruct (Z.eqb_spec k 1); [contradiction|].
    destruct (Z.eqb_spec k 0); [contradiction|]. split; reflexivity. }
  destruct (H0 (TcCache.stats w)) as (Ha & Hb & Hc & Hd).
  destruct (TcCache.http_cache w (tc_key pkt)) as [cached|].
  - change (u64 (TcCache.ktime w - timestamp cached))
      with ((TcCache.ktime w - timestamp cached) mod 2 ^ 64).
    cbv zeta. unfold CACHE_TTL_NS.
    destruct (Z.ltb_spec ((TcCache.ktime w - timestamp cached) mod 2 ^ 64)
                60000000000) as [Hf|Hs].
    + split; [reflexivity|]. split; [exact Ha|].
      split; [intros k Hk0 Hk1; apply Hk; assumption|].
      split; [reflexivity|].
      split; [intros Hts Hnow; apply Z.mod_small; lia|].
      split; [intros ->; reflexivity|].
      split; [intros _; split; [exact Hc|reflexivity]|].
      intros Hge. lia.
    + split; [reflexivity|]. split; [exact Hb|].
      split; [intros k Hk0 Hk1; apply Hk; assumption|].
      split; [reflexivity|].
      split; [intros Hts Hnow; apply Z.mod_small; lia|].
      split; [intros ->; reflexivity|].
      split; [intros Hlt; lia|].
      intros _. split; [exact Hd|reflexivity].
  - split; [reflexivity|]. split; [exact Hb|].
    split; [intros k Hk0 Hk1; apply Hk; assumption|].
    split; [reflexivity|]. split; [exact Hd|reflexivity].
Qed.

(** An entry one nanosecond short of the TTL is a counted hit; the same
    entry at exactly the TTL is not. *)
Lemma tc_cache_hit_freshness_witness :
  tc_get_request BigEndian (get_ab_packet BigEndian) = true
  /\ url_token_len (get_ab_packet BigEndian) <> 0
  /\ (exists w' t,
        TcCache.tc_http_cache BigEndian (get_ab_packet BigEndian)
          (tc_world (cache_entry 1000) 60000000999) = Some (TC_ACT_OK, w', t)
        /\ TcCache.stats w' 0 = 1
        /\ TcCache.stats w' 1 = 1
        /\ filter is_incr t = [EvSlotIncr 0; EvSlotIncr 1])
  /\ (exists w' t,
        TcCache.tc_http_cache BigEndian (get_ab_packet BigEndian)
          (tc_world (cache_entry 1000) 60000001000) = Some (TC_ACT_OK, w', t)
        /\ TcCache.stats w' 0 = 1
        /\ TcCache.stats w' 1 = 0
        /\ filter is_incr t = [EvSlotIncr 0]).
Proof.
  split; [reflexivity|]. split; [discriminate|].
  split.
  - destruct (tc_cache_hit_freshness BigEndian (get_ab_packet BigEndian)
                (tc_world (cache_entry 1000) 60000000999))
      as (w' & t & Hr & _ & H0 & _ & _ & _ & _ & Hm & _);
      [reflexivity|discriminate|].
    exists w', t. split; [exact Hr|]. split; [exact H0|].
    apply Hm. reflexivity.
  - destruct (tc_cache_hit_freshness BigEndian (get_ab_packet BigEndian)
                (tc_world (cache_entry 1000) 60000001000))
      as (w' & t & Hr & _ & H0 & _ & _ & _ & _ & _ & Hm);
      [reflexivity|discriminate|].
    exists w', t. split; [exact Hr|]. split; [exact H0|].
    apply Hm. discriminate.
Defined.

(** The spec's example: the token of [GET /a/b HTTP/1.1] is [/a/b]. *)
Example url_token_get_ab :
  url_token (get_ab_packet BigEndian) = map byte_of [47; 97; 47; 98]
  /\ url_token (get_ab_packet LittleEndian) = map byte_of [47; 97; 47; 98].
Proof. split; reflexivity. Qed.

(** The published FNV-1a test vectors for the empty string and for [a]. *)
Example fnv1a_fold_vectors :
  fnv1a_fold [] = 0xcbf29ce484222325
  /\ fnv1a_fold (map byte_of [97]) = 0xaf63dc4c8601ec8c.
Proof. split; reflexivity. Qed.

(** C6.  For a GET request the URL token starts 4 bytes after the
    payload start, and the scan loop returns as its length the number of
    bytes before the first space (32), carriage return (13) or line feed
    (10), before the end of the buffer, or before the 192-byte maximum,
    whichever comes first: no byte of the token is one of the three, a
    token that ends short of 192 bytes inside the buffer is followed by
    one of them, and 192 bytes free of them give exactly 192.  A zero
    length ends the hook right after the scan, with pass-through, no
    hashing dereference and no cache lookup; otherwise the cache is looked
    up once, under the fingerprint of exactly those bytes. *)
Theorem tc_url_extraction (bo : byte_order) (pkt : packet)
    (w : TcCache.world) :
  tc_get_request bo pkt = true ->
  url_off pkt = payload_off pkt + 4
  /\ TcCache.url_scan pkt (url_off pkt) MAX_URL_LEN 0 0 w
     = Some (url_token_len pkt, w,
             scan_events (url_off pkt) MAX_URL_LEN
               (skipn (Z.to_nat (url_off pkt)) pkt))
  /\ url_token pkt = slice pkt (url_off pkt) (url_token_len pkt)
  /\ 0 <= url_token_len pkt <= 192
  /\ url_off pkt + url_token_len pkt <= pkt_data_end pkt
  /\ (forall i, 0 <= i < url_token_len pkt ->
                byte_at pkt (url_off pkt + i) <> 32
                /\ byte_at pkt (url_off pkt + i) <> 13
                /\ byte_at pkt (url_off pkt + i) <> 10)
  /\ (url_token_len pkt < 192 ->
      url_off pkt + url_token_len pkt < pkt_data_end pkt ->
      byte_at pkt (url_off pkt + url_token_len pkt) = 32
      \/ byte_at pkt (url_off pkt + url_token_len pkt) = 13
      \/ byte_at pkt (url_off pkt + url_token_len pkt) = 10)
  /\ (url_off pkt + 192 <= pkt_data_end pkt ->
      (forall i, 0 <= i < 192 ->
                 byte_at pkt (url_off pkt + i) <> 32
                 /\ byte_at pkt (url_off pkt + i) <> 13
                 /\ byte_at pkt (url_off pkt + i) <> 10) ->
      url_token_len pkt = 192)
  /\ exists w' t,
       TcCache.tc_http_cache bo pkt w = Some (TC_ACT_OK, w', t)
       /\ (url_token_len pkt = 0 ->
           t = tc_header_events pkt ++ tc_request_events pkt
           /\ has_lookup t = false
           /\ TcCache.stats w' 0 = (TcCache.stats w 0 + 1) mod 2 ^ 64
           /\ (forall k, k <> 0 -> TcCache.stats w' k = TcCache.stats w k))
       /\ (url_token_len pkt <> 0 ->
           filter is_lookup t =
           [EvCacheLookup {| hash := fnv1a_fold (url_token pkt);
                             method := 1;
                             port := tcp_dport pkt;
                             padding := 0 |}]).
Proof.
  intros Hget.
  destruct (tc_segment_of_get bo pkt Hget) as (_ & Hus & _).
  pose proof (url_token_len_bound pkt) as [Hk1 Hk2].
  specialize (Hk2 (proj2 Hus)).
  assert (Hdelim : forall c, TcCache.is_delim c = true
                             <-> c = 32 \/ c = 13 \/ c = 10).
  { intros c. unfold TcCache.is_delim. lia. }
  assert (Hclean : forall i, 0 <= i < url_token_len pkt ->
            TcCache.is_delim (byte_at pkt (url_off pkt + i)) = false).
  { intros i Hi.
    replace i with (Z.of_nat (Z.to_nat i)) by lia.
    rewrite <- url_window_nth
      by (unfold url_token_len, url_token, MAX_URL_LEN in *; lia).
    apply until_delim_clean. unfold url_token_len, url_token in Hi. lia. }
  assert (Hstop : url_token_len pkt < 192 ->
            url_off pkt + url_token_len pkt < pkt_data_end pkt ->
            TcCache.is_delim
              (byte_at pkt (url_off pkt + url_token_len pkt)) = true).
  { intros H1 H2. unfold url_token_len, url_token in *.
    rewrite <- url_window_nth by (unfold MAX_URL_LEN in *; lia).
    apply until_delim_stop.
    rewrite length_firstn, length_skipn. unfold pkt_data_end in *.
    unfold MAX_URL_LEN in *. lia. }
  split; [reflexivity|].
  split; [apply url_scan_start; lia|].
  split; [symmetry; apply url_token_slice|].
  split; [exact Hk1|]. split; [exact Hk2|].
  split.
  { intros i Hi. specialize (Hclean i Hi).
    destruct (Hdelim (byte_at pkt (url_off pkt + i))) as [_ Hd].
    repeat split; intros E; rewrite Hd in Hclean by lia; discriminate. }
  split.
  { intros H1 H2. apply Hdelim. apply Hstop; assumption. }
  split.
  { intros Hroom Hnone.
    destruct (Z.eq_dec (url_token_len pkt) 192) as [E|E]; [exact E|].
    exfalso.
    assert (Hd : TcCache.is_delim
                   (byte_at pkt (url_off pkt + url_token_len pkt)) = true)
      by (apply Hstop; lia).
    apply Hdelim in Hd. specialize (Hnone (url_token_len pkt)). lia. }
  rewrite (tc_get_run bo pkt w Hget).
  do 2 eexists. split; [reflexivity|].
  unfold tc_probe_events, tc_probe_stats. split.
  - intros Hz. rewrite Hz. cbn [Z.eqb]. rewrite app_nil_r.
    split; [reflexivity|]. split.
    { unfold has_lookup, tc_header_events, tc_request_events.
      rewrite !existsb_app. rewrite existsb_scan by (intros; reflexivity).
      reflexivity. }
    cbn [TcCache.stats]. split; [reflexivity|].
    intros k Hk. unfold slot_incr, upd.
    destruct (Z.eqb_spec k 0); [contradiction|reflexivity].
  - intros Hnz. apply Z.eqb_neq in Hnz. rewrite Hnz.
    rewrite filter_tc_get_events by reflexivity.
    cbn [is_lookup app filter].
    destruct (TcCache.http_cache w (tc_key pkt)) as [cached|];
      [destruct (_ <? _)|]; reflexivity.
Qed.

(** Three requests in ASCII whose token ends on a space, on a carriage
    return and on a line feed, and one with an empty token. *)
Lemma tc_url_extraction_witness :
  (tc_get_request BigEndian (get_ab_packet BigEndian) = true
   /\ url_token (get_ab_packet BigEndian) = map byte_of [47; 97; 47; 98]
   /\ byte_at (get_ab_packet BigEndian) (54 + 4 + 4) = 32
   /\ exists w' t,
        TcCache.tc_http_cache BigEndian (get_ab_packet BigEndian)
          (tc_world None 0) = Some (TC_ACT_OK, w', t)
        /\ filter is_lookup t =
           [EvCacheLookup {| hash := 0x363e289cb38ee0cc; method := 1;
                             port := 8080; padding := 0 |}])
  /\ (tc_get_request BigEndian get_cr_packet = true
      /\ url_token get_cr_packet = map byte_of [47; 97]
      /\ byte_at get_cr_packet (54 + 4 + 2) = 13
      /\ exists w' t,
           TcCache.tc_http_cache BigEndian get_cr_packet
             (tc_world None 0) = Some (TC_ACT_OK, w', t)
           /\ filter is_lookup t =
              [EvCacheLookup {| hash := 0x07d66707b49cd92d; method := 1;
                                port := 8080; padding := 0 |}])
  /\ (tc_get_request BigEndian get_lf_packet = true
      /\ url_token get_lf_packet = map byte_of [47; 97; 98]
      /\ byte_at get_lf_packet (54 + 4 + 3) = 10
      /\ exists w' t,
           TcCache.tc_http_cache BigEndian get_lf_packet
             (tc_world None 0) = Some (TC_ACT_OK, w', t)
           /\ filter is_lookup t =
              [EvCacheLookup {| hash := 0xee2a6117e685413d; method := 1;
                                port := 8080; padding := 0 |}])
  /\ (tc_get_request BigEndian get_empty_packet = true
      /\ url_token get_empty_packet = []
      /\ exists w' t,
           TcCache.tc_http_cache BigEndian get_empty_packet
             (tc_world None 0) = Some (TC_ACT_OK, w', t)
           /\ has_lookup t = false
           /\ map (TcCache.stats w') [0; 1; 2; 3] = [1; 0; 0; 0]).
Proof.
  split; [|split; [|split]].
  - split; [reflexivity|]. split; [reflexivity|]. split; [reflexivity|].
    destruct (tc_url_extraction BigEndian (get_ab_packet BigEndian)
                (tc_world None 0) eq_refl)
      as (_ & _ & _ & _ & _ & _ & _ & _ & w' & t & Hr & _ & Hk).
    exists w', t. split; [exact Hr|].
    rewrite Hk by discriminate. reflexivity.
  - split; [reflexivity|]. split; [reflexivity|]. split; [reflexivity|].
    destruct (tc_url_extraction BigEndian get_cr_packet
                (tc_world None 0) eq_refl)
      as (_ & _ & _ & _ & _ & _ & _ & _ & w' & t & Hr & _ & Hk).
    exists w', t. split; [exact Hr|].
    rewrite Hk by discriminate. reflexivity.
  - split; [reflexivity|]. split; [reflexivity|]. split; [reflexivity|].
    destruct (tc_url_extraction BigEndian get_lf_packet
                (tc_world None 0) eq_refl)
      as (_ & _ & _ & _ & _ & _ & _ & _ & w' & t & Hr & _ & Hk).
    exists w', t. split; [exact Hr|].
    rewrite Hk by discriminate. reflexivity.
  - split; [reflexivity|]. split; [reflexivity|].
    destruct (tc_url_extraction BigEndian get_empty_packet
                (tc_world None 0) eq_refl)
      as (_ & _ & _ & _ & _ & _ & _ & _ & w' & t & Hr & Hz & _).
    destruct (Hz eq_refl) as (_ & Hl & H0 & Hk).
    exists w', t. split; [exact Hr|]. split; [exact Hl|].
    cbn [map]. rewrite H0, !Hk by discriminate. reflexivity.
Defined.

(** C5 holds at the receive hook and fails at the transmit hook, which
    has no test of the version field.  On a frame whose IP version field
    is 6, [xdp_router_prog] stops in [parse_ip] before any lookup, while
    [tc_http_cache] takes the header length from the same byte, walks on
    to the payload, looks the cache up and counts a hit. *)
Theorem tc_skips_ip_version_check (bo : byte_order) :
  ip_version (version6_request bo) = 6
  /\ xdp_view (XdpRouter.xdp_router_prog bo (version6_request bo)
                 (xdp_world (route_with 1) zero_stats))
     = Some (XDP_PASS,
             {| packets_total := 1; packets_passed := 0;
                packets_dropped := 0; cache_hits := 0 |},
             version6_xdp_trace)
  /\ tc_view (TcCache.tc_http_cache bo (version6_request bo)
                (tc_world (cache_entry 1000) 2000))
     = Some (TC_ACT_OK, [1; 1; 0; 0], version6_tc_trace).
Proof. destruct bo; vm_compute; repeat split. Qed.

(** The receive hook does make the test: no frame whose version field
    differs from 4 reaches the route lookup. *)
Lemma xdp_checks_ip_version (bo : byte_order) (pkt : packet)
    (w : XdpRouter.world) :
  ip_version pkt <> 4 ->
  exists w' t,
    XdpRouter.xdp_router_prog bo pkt w = Some (XDP_PASS, w', t)
    /\ has_lookup t = false.
Proof.
  intros Hv.
  destruct (xdp_other_run bo pkt w) as (t & Hr & Hl & _).
  - unfold xdp_tcp_segment. apply andb_false_iff. right.
    apply Z.eqb_neq. exact Hv.
  - rewrite Hr. do 2 eexists. split; [reflexivity|exact Hl].
Qed.


Lemma slice_cap (pkt : packet) (p n : Z) :
  256 <= n -> firstn 256 (slice pkt p n) = slice pkt p 256.
Proof.
  intros Hn. unfold slice. rewrite firstn_firstn. f_equal. lia.
Qed.



(** C8.  A frame whose Ethernet protocol field is not 0x0800 makes both
    hooks return the pass-through verdict, and neither the route table
    nor the cache is looked up. *)
Theorem non_ipv4_frames_pass (bo : byte_order) (pkt : packet)
    (wx : XdpRouter.world) (wt : TcCache.world) :
  eth_type pkt <> 2048 ->
  (exists w' t,
     XdpRouter.xdp_router_prog bo pkt wx = Some (XDP_PASS, w', t)
     /\ has_lookup t = false)
  /\
  (exists w' t,
     TcCache.tc_http_cache bo pkt wt = Some (TC_ACT_OK, w', t)
     /\ has_lookup t = false).
Proof.
  intros Hty. apply Z.eqb_neq in Hty. split.
  - destruct (xdp_other_run bo pkt wx) as (t & Hr & Hl & _).
    + unfold xdp_tcp_segment, tc_tcp_segment. rewrite Hty.
      now rewrite andb_false_r.
    + rewrite Hr. do 2 eexists. split; [reflexivity|exact Hl].
  - destruct (tc_other_run bo pkt wt) as (t & Hr & Hl & _).
    + unfold tc_get_request, tc_tcp_segment. rewrite Hty.
      now rewrite andb_false_r.
    + rewrite Hr. do 2 eexists. split; [reflexivity|exact Hl].
Qed.

(** An ARP frame. *)
Lemma non_ipv4_frames_pass_witness :
  eth_type arp_frame <> 2048
  /\ (exists w' t,
        XdpRouter.xdp_router_prog LittleEndian arp_frame
          (xdp_world (route_with 1) zero_stats) = Some (XDP_PASS, w', t)
        /\ has_lookup t = false)
  /\ (exists w' t,
        TcCache.tc_http_cache LittleEndian arp_frame
          (tc_world (cache_entry 0) 0) = Some (TC_ACT_OK, w', t)
        /\ has_lookup t = false).
Proof.
  split; [discriminate|].
  apply (non_ipv4_frames_pass LittleEndian arp_frame
           (xdp_world (route_with 1) zero_stats)
           (tc_world (cache_entry 0) 0)).
  discriminate.
Defined.

(** C9.  For a TCP segment whose destination port, read in network byte
    order, is none of 80, 8080 and 3000, [tc_http_cache] returns
    pass-through right after loading the port: the trace ends there, so
    the data offset and the method token are not read, no URL byte is
    compared or read, nothing is hashed, the cache is not looked up, and
    the only counter touched is the total. *)
Theorem tc_other_ports_bypass (bo : byte_order) (pkt : packet)
    (w : TcCache.world) :
  tc_tcp_segment pkt = true ->
  port_allowed (tcp_dport pkt) = false ->
  TcCache.tc_http_cache bo pkt w =
  Some (TC_ACT_OK,
        {| TcCache.http_cache := TcCache.http_cache w;
           TcCache.stats := slot_incr 0 (TcCache.stats w);
           TcCache.ktime := TcCache.ktime w |},
        tc_header_events pkt)
  /\ has_lookup (tc_header_events pkt) = false
  /\ filter is_incr (tc_header_events pkt) = [EvSlotIncr 0]
  /\ (forall p n, In (EvLoad p n) (tc_header_events pkt) -> n < 4)
  /\ (forall q b, ~ In (EvGeEnd q b) (tc_header_events pkt)).
Proof.
  intros Hseg Hport.
  split.
  - remember (TcCache.tc_http_cache bo pkt w) as r eqn:H. symmetry in H.
    unfold tc_header_events, slot_incr.
    unfold_fields.
    unfold_hook H.
    repeat step H.
    subst r. reflexivity.
  - unfold tc_header_events. cbn [has_lookup existsb is_lookup
      filter is_incr In orb].
    repeat split.
    + intros p n Hin.
      repeat (destruct Hin as [Hin|Hin];
              [try discriminate; injection Hin as <- <-; lia|]).
      contradiction.
    + intros q b Hin.
      repeat (destruct Hin as [Hin|Hin]; [discriminate|]).
      contradiction.
Qed.

(** A segment to port 443. *)
Lemma tc_other_ports_bypass_witness :
  tc_tcp_segment (sample_segment 69 443) = true
  /\ port_allowed (tcp_dport (sample_segment 69 443)) = false
  /\ tc_view (TcCache.tc_http_cache LittleEndian (sample_segment 69 443)
                (tc_world (cache_entry 0) 0))
     = Some (TC_ACT_OK, [1; 0; 0; 0],
             tc_header_events (sample_segment 69 443)).
Proof.
  split; [reflexivity|]. split; [reflexivity|].
  rewrite (proj1 (tc_other_ports_bypass LittleEndian (sample_segment 69 443)
                    (tc_world (cache_entry 0) 0) eq_refl eq_refl)).
  reflexivity.
Defined.

(** ** Further properties of the two programs *)

(** X1.  On an IPv4/TCP segment for which the route table has no entry,
    [xdp_router_prog] returns [XDP_PASS] and increments [packets_passed]
    once, after the total and the single lookup: [packets_passed] and the
    total are one more than before, modulo 2^64, [packets_dropped] and
    [cache_hits] are what they were. *)
Theorem xdp_route_miss_passes (bo : byte_order) (pkt : packet)
    (w : XdpRouter.world) :
  xdp_tcp_segment pkt = true ->
  XdpRouter.route_map w (xdp_key bo pkt) = None ->
  exists w',
    XdpRouter.xdp_router_prog bo pkt w =
    Some (XDP_PASS, w',
          xdp_header_events pkt
          ++ [EvRouteLookup (xdp_key bo pkt); EvFieldIncr F_packets_passed])
    /\ packets_passed (XdpRouter.stats w' 0)
       = (packets_passed (XdpRouter.stats w 0) + 1) mod 2 ^ 64
    /\ packets_total (XdpRouter.stats w' 0)
       = (packets_total (XdpRouter.stats w 0) + 1) mod 2 ^ 64
    /\ packets_dropped (XdpRouter.stats w' 0)
       = packets_dropped (XdpRouter.stats w 0)
    /\ cache_hits (XdpRouter.stats w' 0) = cache_hits (XdpRouter.stats w 0).
Proof.
  intros Hseg Hmiss.
  rewrite (xdp_segment_run bo pkt w Hseg). cbv zeta. rewrite Hmiss.
  eexists. split; [reflexivity|]. cbn [XdpRouter.stats].
  repeat match goal with
         | |- context [upd ?m 0 ?v 0] => change (upd m 0 v 0) with v
         end. repeat split.
Qed.

(** A miss on [plain_segment], from counters that have counted five
    packets. *)
Lemma xdp_route_miss_passes_witness :
  xdp_tcp_segment plain_segment = true
  /\ XdpRouter.route_map
       (xdp_world None {| packets_total := 5; packets_passed := 3;
                          packets_dropped := 2; cache_hits := 0 |})
       (xdp_key BigEndian plain_segment) = None
  /\ exists w',
       XdpRouter.xdp_router_prog BigEndian plain_segment
         (xdp_world None {| packets_total := 5; packets_passed := 3;
                            packets_dropped := 2; cache_hits := 0 |}) =
       Some (XDP_PASS, w',
             xdp_header_events plain_segment
             ++ [EvRouteLookup (xdp_key BigEndian plain_segment);
                 EvFieldIncr F_packets_passed])
       /\ XdpRouter.stats w' 0
          = {| packets_total := 6; packets_passed := 4;
               packets_dropped := 2; cache_hits := 0 |}.
Proof.
  split; [reflexivity|]. split; [reflexivity|].
  destruct (xdp_route_miss_passes BigEndian plain_segment
              (xdp_world None {| packets_total := 5; packets_passed := 3;
                                 packets_dropped := 2; cache_hits := 0 |})
              eq_refl eq_refl) as (w' & Hr & Hp & Ht & Hd & Hc).
  exists w'. split; [exact Hr|].
  destruct (XdpRouter.stats w' 0); cbn in Hp, Ht, Hd, Hc.
  rewrite Hp, Ht, Hd, Hc. reflexivity.
Defined.

(** X2.  [xdp_router_prog] returns [XDP_DROP] only for an IPv4/TCP
    segment whose route entry has action 1, and [XDP_TX] only for one
    whose entry has action 2, and it does so for each of them; it never
    returns [XDP_ABORTED] or [XDP_REDIRECT].  Every other packet
    passes. *)
Theorem xdp_verdict_sound (bo : byte_order) (pkt : packet)
    (w w' : XdpRouter.world) (v : xdp_action) (t : list event) :
  XdpRouter.xdp_router_prog bo pkt w = Some (v, w', t) ->
  (v = XDP_DROP <->
   xdp_tcp_segment pkt = true
   /\ exists route, XdpRouter.route_map w (xdp_key bo pkt) = Some route
                    /\ action route = 1)
  /\ (v = XDP_TX <->
      xdp_tcp_segment pkt = true
      /\ exists route, XdpRouter.route_map w (xdp_key bo pkt) = Some route
                       /\ action route = 2)
  /\ v <> XDP_ABORTED /\ v <> XDP_REDIRECT.
Proof.
  intros Hr. destruct (xdp_tcp_segment pkt) eqn:Hseg.
  - rewrite (xdp_segment_run bo pkt w Hseg) in Hr. cbv zeta in Hr.
    injection Hr as <- _ _. unfold xdp_verdict.
    destruct (XdpRouter.route_map w (xdp_key bo pkt)) as [route|].
    + destruct (Z.eqb_spec (action route) 1) as [E1|E1];
        [|destruct (Z.eqb_spec (action route) 2) as [E2|E2]].
      * repeat split; try discriminate.
        -- exists route. split; [reflexivity|exact E1].
        -- intros (_ & r & Hsome & Ha). injection Hsome as <-. lia.
      * repeat split; try discriminate.
        -- intros (_ & r & Hsome & Ha). injection Hsome as <-. lia.
        -- exists route. split; [reflexivity|exact E2].
      * repeat split; try discriminate.
        -- intros (_ & r & Hsome & Ha). injection Hsome as <-. lia.
        -- intros (_ & r & Hsome & Ha). injection Hsome as <-. lia.
    + repeat split; try discriminate.
      * intros (_ & r & Hsome & _). discriminate.
      * intros (_ & r & Hsome & _). discriminate.
  - destruct (xdp_other_run bo pkt w Hseg) as (t0 & Hr0 & _).
    rewrite Hr0 in Hr. injection Hr as <- _ _.
    repeat split; try discriminate.
    + intros (H & _). discriminate.
    + intros (H & _). discriminate.
Qed.

Lemma xdp_verdict_sound_witness :
  exists w' t,
    XdpRouter.xdp_router_prog LittleEndian plain_segment
      (xdp_world (route_with 1) zero_stats) = Some (XDP_DROP, w', t)
    /\ xdp_tcp_segment plain_segment = true.
Proof.
  destruct (XdpRouter.xdp_router_prog LittleEndian plain_segment
              (xdp_world (route_with 1) zero_stats))
    as [[[v w'] t]|] eqn:Hr; [|vm_compute in Hr; discriminate].
  assert (Hv : v = XDP_DROP)
    by (vm_compute in Hr; injection Hr as <- _ _; reflexivity).
  subst v. exists w', t. split; [reflexivity|].
  exact (proj1 (proj1 (proj1 (xdp_verdict_sound LittleEndian plain_segment
                                (xdp_world (route_with 1) zero_stats)
                                w' XDP_DROP t Hr)) eq_refl)).
Defined.

(** X3.  A packet that is not an IPv4/TCP segment with its headers inside
    the buffer (too short, another ethertype, IP version or protocol)
    passes without a route lookup, and of all counters only the total is
    incremented: [packets_passed] counts the packets that reached the
    lookup, not those that bypassed it. *)
Theorem xdp_bypass_counts_total_only (bo : byte_order) (pkt : packet)
    (w : XdpRouter.world) :
  xdp_tcp_segment pkt = false ->
  exists w' t,
    XdpRouter.xdp_router_prog bo pkt w = Some (XDP_PASS, w', t)
    /\ has_lookup t = false
    /\ filter is_incr t = [EvFieldIncr F_packets_total]
    /\ XdpRouter.stats w' 0 = bump F_packets_total (XdpRouter.stats w 0).
Proof.
  intros Hseg.
  destruct (xdp_other_run bo pkt w Hseg) as (t & Hr & Hl & Hi & _).
  rewrite Hr. do 2 eexists. split; [reflexivity|].
  cbn [has_lookup existsb is_lookup orb filter is_incr XdpRouter.stats].
  rewrite Hi, upd_same. repeat split. exact Hl.
Qed.

(** A UDP datagram: protocol 17. *)
Lemma xdp_bypass_counts_total_only_witness :
  xdp_tcp_segment udp_datagram = false
  /\ exists w' t,
       XdpRouter.xdp_router_prog LittleEndian udp_datagram
         (xdp_world (route_with 1) zero_stats) = Some (XDP_PASS, w', t)
       /\ has_lookup t = false
       /\ filter is_incr t = [EvFieldIncr F_packets_total]
       /\ XdpRouter.stats w' 0 = bump F_packets_total zero_stats.
Proof.
  split; [reflexivity|].
  exact (xdp_bypass_counts_total_only LittleEndian udp_datagram
           (xdp_world (route_with 1) zero_stats) eq_refl).
Defined.

Lemma read16_htons (bo : byte_order) (pkt : packet) (p : Z) :
  read16 bo pkt p = bpf_htons bo (be16 pkt p).
Proof.
  destruct bo; unfold bpf_htons, read16, be16; [|reflexivity].
  rewrite (Z.add_comm (256 * byte_at pkt p)).
  rewrite bswap16_bytes by apply byte_at_range. lia.
Qed.

(** X4.  The key of the route lookup has prefix length 48, the
    destination address as the four bytes at offset 30 are loaded, the
    destination port still in network byte order, that is [bpf_htons] of
    the port number, and protocol 6. *)
Theorem xdp_lookup_key_fields (bo : byte_order) (pkt : packet)
    (w : XdpRouter.world) :
  xdp_tcp_segment pkt = true ->
  exists v w' t,
    XdpRouter.xdp_router_prog bo pkt w = Some (v, w', t)
    /\ filter is_lookup t =
       [EvRouteLookup {| prefix_len := 48;
                         dest_ip := read32 bo pkt 30;
                         dest_port := bpf_htons bo (tcp_dport pkt);
                         protocol := 6 |}].
Proof.
  intros Hseg.
  rewrite (xdp_segment_run bo pkt w Hseg). cbv zeta.
  do 3 eexists. split; [reflexivity|].
  unfold xdp_header_events, xdp_key, tcp_dport.
  rewrite <- read16_htons.
  unfold xdp_tcp_segment, tc_tcp_segment in Hseg.
  repeat (apply andb_true_iff in Hseg; destruct Hseg as [Hseg ?]).
  replace (ip_proto pkt) with 6 by lia.
  reflexivity.
Qed.

Lemma xdp_lookup_key_fields_witness :
  xdp_tcp_segment plain_segment = true
  /\ exists v w' t,
       XdpRouter.xdp_router_prog LittleEndian plain_segment
         (xdp_world None zero_stats) = Some (v, w', t)
       /\ filter is_lookup t =
          [EvRouteLookup {| prefix_len := 48;
                            dest_ip := 0x0200000a;
                            dest_port := 0x5000;
                            protocol := 6 |}].
Proof.
  split; [reflexivity|].
  exact (xdp_lookup_key_fields LittleEndian plain_segment
           (xdp_world None zero_stats) eq_refl).
Defined.

Lemma upd_other (V : Type) (m : Z -> V) (k k' : Z) (v : V) :
  k' <> k -> upd m k v k' = m k'.
Proof.
  intros H. unfold upd. destruct (Z.eqb_spec k' k); [contradiction|reflexivity].
Qed.

Lemma cache_hits_bump (f : stats_field) (s : stats_value) :
  f <> F_cache_hits -> cache_hits (bump f s) = cache_hits s.
Proof. destruct f; intros H; try reflexivity. contradiction. Qed.

(** X5.  [xdp_router_prog] never fails, never writes the route table,
    leaves the slots of [stats] other than slot 0 alone and never changes
    the [cache_hits] field. *)
Theorem xdp_writes_counters_only (bo : byte_order) (pkt : packet)
    (w : XdpRouter.world) :
  exists v w' t,
    XdpRouter.xdp_router_prog bo pkt w = Some (v, w', t)
    /\ XdpRouter.route_map w' = XdpRouter.route_map w
    /\ (forall k, k <> 0 -> XdpRouter.stats w' k = XdpRouter.stats w k)
    /\ cache_hits (XdpRouter.stats w' 0) = cache_hits (XdpRouter.stats w 0).
Proof.
  destruct (xdp_tcp_segment pkt) eqn:Hseg.
  - rewrite (xdp_segment_run bo pkt w Hseg). cbv zeta.
    do 3 eexists. split; [reflexivity|].
    cbn [XdpRouter.route_map XdpRouter.stats]. split; [reflexivity|]. split.
    + intros k Hk. now rewrite !upd_other by exact Hk.
    + rewrite !upd_same. rewrite !cache_hits_bump; [reflexivity|discriminate|].
      unfold xdp_counter.
      destruct (XdpRouter.route_map w (xdp_key bo pkt)) as [route|];
        [destruct (action route =? 1)|]; discriminate.
  - destruct (xdp_other_run bo pkt w Hseg) as (t & Hr & _).
    rewrite Hr. do 3 eexists. split; [reflexivity|].
    cbn [XdpRouter.route_map XdpRouter.stats]. split; [reflexivity|]. split.
    + intros k Hk. now rewrite upd_other by exact Hk.
    + rewrite upd_same. reflexivity.
Qed.

Lemma xdp_step_accounting (bo : byte_order) (pkt : packet)
    (w : XdpRouter.world) :
  counters_within (XdpRouter.stats w 0) ->
  packets_total (XdpRouter.stats w 0) + 1 < 2 ^ 64 ->
  exists v w1 t,
    XdpRouter.xdp_router_prog bo pkt w = Some (v, w1, t)
    /\ XdpRouter.route_map w1 = XdpRouter.route_map w
    /\ counters_within (XdpRouter.stats w1 0)
    /\ packets_total (XdpRouter.stats w1 0)
       = packets_total (XdpRouter.stats w 0) + 1
    /\ packets_dropped (XdpRouter.stats w1 0)
       = packets_dropped (XdpRouter.stats w 0)
         + (if xdp_counts_dropped bo w pkt then 1 else 0)
    /\ packets_passed (XdpRouter.stats w1 0)
       = packets_passed (XdpRouter.stats w 0)
         + (if xdp_counts_passed bo w pkt then 1 else 0)
    /\ cache_hits (XdpRouter.stats w1 0) = cache_hits (XdpRouter.stats w 0).
Proof.
  intros (H0 & H1 & H2 & H3 & H4) Hlt.
  unfold xdp_counts_dropped, xdp_counts_passed, is_drop_route.
  destruct (xdp_tcp_segment pkt) eqn:Hseg.
  - rewrite (xdp_segment_run bo pkt w Hseg). cbv zeta.
    do 3 eexists. split; [reflexivity|].
    cbn [XdpRouter.route_map XdpRouter.stats andb]. rewrite !upd_same.
    split; [reflexivity|].
    unfold xdp_counter, counters_within.
    destruct (XdpRouter.route_map w (xdp_key bo pkt)) as [route|];
      [destruct (action route =? 1)|];
      unfold bump; cbn [packets_total packets_passed packets_dropped
                        cache_hits negb];
      rewrite !u64_small by lia; lia.
  - destruct (xdp_other_run bo pkt w Hseg) as (t & Hr & _).
    rewrite Hr. do 3 eexists. split; [reflexivity|].
    cbn [XdpRouter.route_map XdpRouter.stats andb]. rewrite !upd_same.
    split; [reflexivity|].
    unfold counters_within, bump;
      cbn [packets_total packets_passed packets_dropped cache_hits].
    rewrite !u64_small by lia. lia.
Qed.

Lemma xdp_run_accounting_from (bo : byte_order) (w0 : XdpRouter.world)
    (pkts : list packet) :
  forall w,
    XdpRouter.route_map w = XdpRouter.route_map w0 ->
    counters_within (XdpRouter.stats w 0) ->
    packets_total (XdpRouter.stats w 0) + Z.of_nat (length pkts) < 2 ^ 64 ->
    exists w',
      xdp_run bo pkts w = Some w'
      /\ XdpRouter.route_map w' = XdpRouter.route_map w0
      /\ packets_total (XdpRouter.stats w' 0)
         = packets_total (XdpRouter.stats w 0) + Z.of_nat (length pkts)
      /\ packets_dropped (XdpRouter.stats w' 0)
         = packets_dropped (XdpRouter.stats w 0)
           + Z.of_nat (length (filter (xdp_counts_dropped bo w0) pkts))
      /\ packets_passed (XdpRouter.stats w' 0)
         = packets_passed (XdpRouter.stats w 0)
           + Z.of_nat (length (filter (xdp_counts_passed bo w0) pkts))
      /\ cache_hits (XdpRouter.stats w' 0) = cache_hits (XdpRouter.stats w 0).
Proof.
  induction pkts as [|pkt pkts IH]; intros w Hmap Hw Hlen.
  - exists w. cbn [xdp_run length filter Z.of_nat]. repeat split; try lia.
    exact Hmap.
  - cbn [xdp_run]. cbn [length] in Hlen. rewrite Nat2Z.inj_succ in Hlen.
    destruct (xdp_step_accounting bo pkt w Hw)
      as (v & w1 & t & Hr & Hm1 & Hc1 & Ht1 & Hd1 & Hp1 & Hh1); [lia|].
    rewrite Hr.
    destruct (IH w1) as (w' & Hrun & Hm & Ht & Hd & Hp & Hh);
      [congruence | exact Hc1 | lia |].
    exists w'. split; [exact Hrun|]. split; [exact Hm|].
    assert (Ed : xdp_counts_dropped bo w pkt = xdp_counts_dropped bo w0 pkt)
      by (unfold xdp_counts_dropped; now rewrite Hmap).
    assert (Ep : xdp_counts_passed bo w pkt = xdp_counts_passed bo w0 pkt)
      by (unfold xdp_counts_passed; now rewrite Hmap).
    rewrite Ed in Hd1. rewrite Ep in Hp1.
    cbn [length filter]. rewrite Nat2Z.inj_succ.
    destruct (xdp_counts_dropped bo w0 pkt);
      destruct (xdp_counts_passed bo w0 pkt);
      cbn [length]; rewrite ?Nat2Z.inj_succ; repeat split; lia.
Qed.

(** X6.  After a CPU has run the receive hook on a sequence of packets
    from zeroed counters, with the route table unchanged meanwhile,
    [packets_total] is the number of packets, [packets_dropped] the number
    of segments with a drop entry, [packets_passed] the number of the other
    segments, so that passed plus dropped is the number of IPv4/TCP
    segments, and [cache_hits] is still 0. *)
Theorem xdp_run_accounting (bo : byte_order) (pkts : list packet)
    (w : XdpRouter.world) :
  XdpRouter.stats w 0 = zero_stats ->
  Z.of_nat (length pkts) < 2 ^ 64 ->
  exists w',
    xdp_run bo pkts w = Some w'
    /\ XdpRouter.route_map w' = XdpRouter.route_map w
    /\ packets_total (XdpRouter.stats w' 0) = Z.of_nat (length pkts)
    /\ packets_dropped (XdpRouter.stats w' 0)
       = Z.of_nat (length (filter (xdp_counts_dropped bo w) pkts))
    /\ packets_passed (XdpRouter.stats w' 0)
       = Z.of_nat (length (filter (xdp_counts_passed bo w) pkts))
    /\ cache_hits (XdpRouter.stats w' 0) = 0
    /\ packets_passed (XdpRouter.stats w' 0)
       + packets_dropped (XdpRouter.stats w' 0)
       = Z.of_nat (length (filter xdp_tcp_segment pkts)).
Proof.
  intros Hz Hlen.
  destruct (xdp_run_accounting_from bo w pkts w)
    as (w' & Hrun & Hm & Ht & Hd & Hp & Hh).
  - reflexivity.
  - rewrite Hz. unfold counters_within, zero_stats. simpl. lia.
  - rewrite Hz. simpl. lia.
  - rewrite Hz in *. cbn [zero_stats packets_total packets_dropped
      packets_passed cache_hits] in *.
    exists w'. repeat split; try assumption; try lia.
    rewrite Hp, Hd. clear. induction pkts as [|p pkts IH]; [reflexivity|].
    cbn [filter]. unfold xdp_counts_passed, xdp_counts_dropped in *.
    destruct (xdp_tcp_segment p); cbn [andb];
      [destruct (is_drop_route _); cbn [negb length];
       rewrite ?Nat2Z.inj_succ; lia | exact IH].
Qed.

Lemma xdp_run_accounting_witness :
  XdpRouter.stats (xdp_world (route_with 1) zero_stats) 0 = zero_stats
  /\ Z.of_nat (length [plain_segment; udp_datagram; plain_segment]) < 2 ^ 64
  /\ exists w',
       xdp_run LittleEndian [plain_segment; udp_datagram; plain_segment]
         (xdp_world (route_with 1) zero_stats) = Some w'
       /\ packets_total (XdpRouter.stats w' 0) = 3
       /\ packets_dropped (XdpRouter.stats w' 0) = 2
       /\ packets_passed (XdpRouter.stats w' 0) = 0.
Proof.
  split; [reflexivity|]. split; [reflexivity|].
  destruct (xdp_run_accounting LittleEndian
              [plain_segment; udp_datagram; plain_segment]
              (xdp_world (route_with 1) zero_stats) eq_refl eq_refl)
    as (w' & Hrun & _ & Ht & Hd & Hp & _).
  exists w'. split; [exact Hrun|]. split; [exact Ht|].
  split; [exact Hd|exact Hp].
Defined.

(** A token that is not [HTTP_GET] ends the run right after it is read. *)
Lemma tc_token_rejected_run (bo : byte_order) (pkt : packet)
    (w : TcCache.world) :
  tc_tcp_segment pkt = true ->
  port_allowed (tcp_dport pkt) = true ->
  payload_off pkt + 4 <= pkt_data_end pkt ->
  read32 bo pkt (payload_off pkt) <> HTTP_GET ->
  TcCache.tc_http_cache bo pkt w =
  Some (TC_ACT_OK,
        {| TcCache.http_cache := TcCache.http_cache w;
           TcCache.stats := slot_incr 0 (TcCache.stats w);
           TcCache.ktime := TcCache.ktime w |},
        tc_header_events pkt ++ tc_token_events pkt).
Proof.
  intros Hseg Hport Hfit Hm. apply Z.eqb_neq in Hm.
  remember (TcCache.tc_http_cache bo pkt w) as r eqn:H. symmetry in H.
  unfold tc_header_events, tc_token_events, slot_incr.
  unfold_fields.
  unfold_hook H.
  repeat step H.
  all: subst r; reflexivity.
Qed.

(** X7.  For a segment to an allowed port whose 4-byte token is inside
    the buffer but is not read as [HTTP_GET] (a POST request, or anything
    else), [tc_http_cache] returns pass-through right after reading the
    token: no URL byte is compared or read, the cache is not looked up,
    only the total is incremented. *)
Theorem tc_other_methods_bypass (bo : byte_order) (pkt : packet)
    (w : TcCache.world) :
  tc_tcp_segment pkt = true ->
  port_allowed (tcp_dport pkt) = true ->
  payload_off pkt + 4 <= pkt_data_end pkt ->
  read32 bo pkt (payload_off pkt) <> HTTP_GET ->
  exists w' t,
    TcCache.tc_http_cache bo pkt w = Some (TC_ACT_OK, w', t)
    /\ t = tc_header_events pkt ++ tc_token_events pkt
    /\ has_lookup t = false
    /\ (forall q b, ~ In (EvGeEnd q b) t)
    /\ filter is_incr t = [EvSlotIncr 0]
    /\ TcCache.stats w' = slot_incr 0 (TcCache.stats w).
Proof.
  intros Hseg Hport Hfit Hm.
  rewrite (tc_token_rejected_run bo pkt w Hseg Hport Hfit Hm).
  do 2 eexists. split; [reflexivity|]. split; [reflexivity|].
  unfold tc_header_events, tc_token_events.
  cbn [app has_lookup existsb is_lookup orb filter is_incr TcCache.stats].
  repeat split.
  intros q b Hin.
  repeat (destruct Hin as [Hin|Hin]; [discriminate|]).
  contradiction.
Qed.

Lemma tc_other_methods_bypass_witness :
  tc_tcp_segment (post_packet LittleEndian) = true
  /\ port_allowed (tcp_dport (post_packet LittleEndian)) = true
  /\ read32 LittleEndian (post_packet LittleEndian)
       (payload_off (post_packet LittleEndian)) = HTTP_POST
  /\ tc_view (TcCache.tc_http_cache LittleEndian (post_packet LittleEndian)
                (tc_world (cache_entry 0) 0))
     = Some (TC_ACT_OK, [1; 0; 0; 0],
             tc_header_events (post_packet LittleEndian)
             ++ tc_token_events (post_packet LittleEndian)).
Proof.
  split; [reflexivity|]. split; [reflexivity|]. split; [reflexivity|].
  destruct (tc_other_methods_bypass LittleEndian (post_packet LittleEndian)
              (tc_world (cache_entry 0) 0) eq_refl eq_refl)
    as (w' & t & Hr & Ht & _ & _ & _ & Hs);
    [vm_compute; discriminate | vm_compute; discriminate |].
  rewrite Hr. cbn [tc_view]. rewrite Hs, Ht. reflexivity.
Defined.

Lemma read32_get_bytes (bo : byte_order) (pkt : packet) (p : Z) :
  read32 bo pkt p = HTTP_GET <->
  match bo with
  | BigEndian =>
      byte_at pkt p = 71 /\ byte_at pkt (p + 1) = 69
      /\ byte_at pkt (p + 2) = 84 /\ byte_at pkt (p + 3) = 32
  | LittleEndian =>
      byte_at pkt p = 32 /\ byte_at pkt (p + 1) = 84
      /\ byte_at pkt (p + 2) = 69 /\ byte_at pkt (p + 3) = 71
  end.
Proof.
  pose proof (byte_at_range pkt p). pose proof (byte_at_range pkt (p + 1)).
  pose proof (byte_at_range pkt (p + 2)).
  pose proof (byte_at_range pkt (p + 3)).
  unfold read32, HTTP_GET. destruct bo; lia.
Qed.

(** X8.  The method token is compared as the target loads it, without a
    byte swap.  A payload that starts with the ASCII bytes [G], [E], [T],
    space is a GET request on a big-endian target only: on a little-endian
    target [tc_http_cache] reads it as another method and returns after
    the token, without a cache lookup. *)
Theorem tc_ascii_get_needs_big_endian (pkt : packet) (w : TcCache.world) :
  tc_tcp_segment pkt = true ->
  port_allowed (tcp_dport pkt) = true ->
  payload_off pkt + 4 <= pkt_data_end pkt ->
  byte_at pkt (payload_off pkt) = 71 ->
  byte_at pkt (payload_off pkt + 1) = 69 ->
  byte_at pkt (payload_off pkt + 2) = 84 ->
  byte_at pkt (payload_off pkt + 3) = 32 ->
  tc_get_request BigEndian pkt = true
  /\ tc_get_request LittleEndian pkt = false
  /\ TcCache.tc_http_cache LittleEndian pkt w =
     Some (TC_ACT_OK,
           {| TcCache.http_cache := TcCache.http_cache w;
              TcCache.stats := slot_incr 0 (TcCache.stats w);
              TcCache.ktime := TcCache.ktime w |},
           tc_header_events pkt ++ tc_token_events pkt)
  /\ has_lookup (tc_header_events pkt ++ tc_token_events pkt) = false.
Proof.
  intros Hseg Hport Hfit H0 H1 H2 H3.
  assert (Hbe : read32 BigEndian pkt (payload_off pkt) = HTTP_GET)
    by (apply read32_get_bytes; repeat split; assumption).
  assert (Hle : read32 LittleEndian pkt (payload_off pkt) <> HTTP_GET).
  { intros E. apply read32_get_bytes in E. lia. }
  split; [|split; [|split]].
  - unfold tc_get_request. rewrite Hseg, Hport.
    apply Z.eqb_eq in Hbe. rewrite Hbe.
    replace (payload_off pkt + 4 <=? pkt_data_end pkt) with true by lia.
    reflexivity.
  - unfold tc_get_request. apply Z.eqb_neq in Hle. rewrite Hle.
    apply andb_false_r.
  - apply tc_token_rejected_run; assumption.
  - reflexivity.
Qed.

(** The ASCII request [GET /a/b HTTP/1.1] on a little-endian target. *)
Lemma tc_ascii_get_needs_big_endian_witness :
  tc_tcp_segment (get_ab_packet BigEndian) = true
  /\ byte_at (get_ab_packet BigEndian)
       (payload_off (get_ab_packet BigEndian)) = 71
  /\ tc_get_request LittleEndian (get_ab_packet BigEndian) = false
  /\ tc_view (TcCache.tc_http_cache LittleEndian (get_ab_packet BigEndian)
                (tc_world (cache_entry 0) 0))
     = Some (TC_ACT_OK, [1; 0; 0; 0],
             tc_header_events (get_ab_packet BigEndian)
             ++ tc_token_events (get_ab_packet BigEndian)).
Proof.
  split; [reflexivity|]. split; [reflexivity|].
  destruct (tc_ascii_get_needs_big_endian (get_ab_packet BigEndian)
              (tc_world (cache_entry 0) 0))
    as (_ & Hle & Hr & _);
    try reflexivity; [vm_compute; discriminate|].
  split; [exact Hle|]. rewrite Hr. reflexivity.
Defined.


Lemma fnv1a_fold_short (bs : list byte) :
  (length bs <= 256)%nat ->
  fnv1a_fold bs = fold_left fnv1a_step bs FNV_OFFSET.
Proof.
  intros H. unfold fnv1a_fold. now rewrite firstn_all2 by exact H.
Qed.

(** X10.  The 256-byte cap of [fnv1a_hash] never applies inside
    [tc_http_cache]: the URL token has between 1 and 192 bytes when the
    cache is looked up, and the hash in the key is the FNV-1a fold of the
    whole token.  The key holds nothing else of the packet but the
    destination port, which is one of the allowed ones. *)
Theorem tc_key_hashes_whole_token (bo : byte_order) (pkt : packet)
    (w : TcCache.world) :
  tc_get_request bo pkt = true ->
  url_token_len pkt <> 0 ->
  exists w' t,
    TcCache.tc_http_cache bo pkt w = Some (TC_ACT_OK, w', t)
    /\ filter is_lookup t =
       [EvCacheLookup
          {| hash := fold_left
                       (fun h b => u64 (Z.lxor h (byte_val b) * FNV_PRIME))
                       (url_token pkt) FNV_OFFSET;
             method := 1;
             port := tcp_dport pkt;
             padding := 0 |}]
    /\ (0 < length (url_token pkt) <= 192)%nat
    /\ port_allowed (tcp_dport pkt) = true.
Proof.
  intros Hget Hlen.
  pose proof (url_token_len_bound pkt) as [Hk _].
  assert (Hn : (0 < length (url_token pkt) <= 192)%nat)
    by (unfold url_token_len in *; lia).
  rewrite (tc_get_run bo pkt w Hget).
  do 2 eexists. split; [reflexivity|].
  unfold tc_probe_events. apply Z.eqb_neq in Hlen. rewrite Hlen.
  rewrite filter_tc_get_events by reflexivity.
  cbn [is_lookup app filter]. split; [|split; [exact Hn|]].
  - unfold tc_key. rewrite fnv1a_fold_short by lia.
    destruct (TcCache.http_cache w _) as [cached|];
      [destruct (_ <? _)|]; reflexivity.
  - unfold tc_get_request in Hget.
    repeat (apply andb_true_iff in Hget; destruct Hget as [Hget ?]).
    assumption.
Qed.

Lemma tc_key_hashes_whole_token_witness :
  tc_get_request BigEndian (get_ab_packet BigEndian) = true
  /\ url_token_len (get_ab_packet BigEndian) <> 0
  /\ exists w' t,
       TcCache.tc_http_cache BigEndian (get_ab_packet BigEndian)
         (tc_world None 0) = Some (TC_ACT_OK, w', t)
       /\ filter is_lookup t =
          [EvCacheLookup {| hash := 0x363e289cb38ee0cc; method := 1;
                            port := 8080; padding := 0 |}].
Proof.
  split; [reflexivity|]. split; [discriminate|].
  destruct (tc_key_hashes_whole_token BigEndian (get_ab_packet BigEndian)
              (tc_world None 0) eq_refl)
    as (w' & t & Hr & Hk & _); [discriminate|].
  exists w', t. split; [exact Hr|]. rewrite Hk. reflexivity.
Defined.

Lemma tc_step_counts (bo : byte_order) (pkt : packet) (w : TcCache.world) :
  0 <= TcCache.stats w 1 <= TcCache.stats w 0 ->
  TcCache.stats w 0 + 1 < 2 ^ 64 ->
  exists v w' t,
    TcCache.tc_http_cache bo pkt w = Some (v, w', t)
    /\ TcCache.stats w' 0 = TcCache.stats w 0 + 1
    /\ TcCache.stats w 1 <= TcCache.stats w' 1 <= TcCache.stats w 1 + 1.
Proof.
  intros Hw Hlt.
  destruct (tc_get_request bo pkt) eqn:Hget.
  - rewrite (tc_get_run bo pkt w Hget).
    do 3 eexists. split; [reflexivity|]. cbn [TcCache.stats].
    unfold tc_probe_stats, slot_incr.
    destruct (url_token_len pkt =? 0);
      [|destruct (TcCache.http_cache w (tc_key pkt)) as [cached|];
        [destruct (u64 (TcCache.ktime w - timestamp cached) <? CACHE_TTL_NS)
        |]].
    all: rewrite ?upd_same, ?(upd_other _ _ 1 0), ?(upd_other _ _ 0 1)
           by discriminate.
    all: rewrite ?upd_same, ?(upd_other _ _ 1 0) by discriminate.
    all: rewrite ?u64_small by lia; lia.
  - destruct (tc_other_run bo pkt w Hget) as (t & Hr & _).
    rewrite Hr. do 3 eexists. split; [reflexivity|]. cbn [TcCache.stats].
    unfold slot_incr. rewrite upd_same, upd_other by discriminate.
    rewrite u64_small by lia. lia.
Qed.

(** X11.  After a CPU has run the transmit hook on a sequence of
    packets from zeroed counters, whatever the cache held and the clock
    showed at each call, slot 0 of [stats] is the number of packets and
    slot 1, the hit counter, is at most that. *)
Theorem tc_run_hits_bounded (bo : byte_order)
    (calls : list (packet * (cache_key -> option cache_value) * Z))
    (st : Z -> Z) :
  st 0 = 0 -> st 1 = 0 ->
  Z.of_nat (length calls) < 2 ^ 64 ->
  exists st',
    tc_run bo calls st = Some st'
    /\ st' 0 = Z.of_nat (length calls)
    /\ 0 <= st' 1 <= st' 0.
Proof.
  intros H0 H1 Hlen.
  assert (G : forall calls st,
             0 <= st 1 <= st 0 ->
             st 0 + Z.of_nat (length calls) < 2 ^ 64 ->
             exists st',
               tc_run bo calls st = Some st'
               /\ st' 0 = st 0 + Z.of_nat (length calls)
               /\ 0 <= st' 1 <= st' 0).
  { clear. induction calls as [|[[pkt cache] now] calls IH];
      intros st Hst Hlen.
    - exists st. cbn [tc_run length Z.of_nat]. repeat split; lia.
    - cbn [tc_run]. cbn [length] in Hlen. rewrite Nat2Z.inj_succ in Hlen.
      destruct (tc_step_counts bo pkt
                  {| TcCache.http_cache := cache; TcCache.stats := st;
                     TcCache.ktime := now |})
        as (v & w' & t & Hr & Ht & Hh); [exact Hst | cbn; lia |].
      cbn [TcCache.stats] in Ht, Hh. rewrite Hr.
      destruct (IH (TcCache.stats w')) as (st' & Hrun & Htot & Hb);
        [lia | lia |].
      exists st'. split; [exact Hrun|].
      cbn [length]. rewrite Nat2Z.inj_succ. split; lia. }
  destruct (G calls st) as (st' & Hrun & Htot & Hb); [lia | lia |].
  exists st'. split; [exact Hrun|]. split; [lia|exact Hb].
Qed.

Lemma tc_run_hits_bounded_witness :
  exists st',
    tc_run BigEndian
      [(get_ab_packet BigEndian, fun _ => cache_entry 5, 10);
       (arp_frame, fun _ => None, 20)]
      (fun _ => 0) = Some st'
    /\ st' 0 = 2 /\ 0 <= st' 1 <= st' 0.
Proof.
  apply (tc_run_hits_bounded BigEndian
           [(get_ab_packet BigEndian, fun _ => cache_entry 5, 10);
            (arp_frame, fun _ => None, 20)]
           (fun _ => 0)); reflexivity.
Defined.

Lemma firstn_snoc (l : list byte) (n : nat) :
  (n < length l)%nat -> firstn (S n) l = firstn n l ++ [nth n l x00].
Proof.
  revert n. induction l as [|b l IH]; intros n Hn; cbn [length] in Hn;
    [lia|].
  destruct n as [|n]; [reflexivity|].
  rewrite !firstn_cons. cbn [nth app]. f_equal. apply IH. lia.
Qed.

Lemma slice_snoc (pkt : packet) (p n : Z) :
  0 <= p -> 0 <= n -> p + n < pkt_data_end pkt ->
  slice pkt p (n + 1)
  = slice pkt p n ++ [nth (Z.to_nat (p + n)) pkt x00].
Proof.
  intros Hp Hn Hb. unfold slice, pkt_data_end in *.
  replace (Z.to_nat (n + 1)) with (S (Z.to_nat n)) by lia.
  rewrite firstn_snoc by (rewrite length_skipn; lia).
  rewrite nth_skipn. do 3 f_equal. lia.
Qed.

Lemma load_events_snoc (n : nat) :
  forall p,
    load_events p (Datatypes.S n)
    = load_events p n ++ [EvLoad (p + Z.of_nat n) 1].
Proof.
  induction n as [|n IH]; intros p.
  - unfold load_events. cbn [app Z.of_nat]. now rewrite Z.add_0_r.
  - change (load_events p (Datatypes.S (Datatypes.S n)))
      with (EvLoad p 1 :: load_events (p + 1) (Datatypes.S n)).
    rewrite IH.
    change (load_events p (Datatypes.S n))
      with (EvLoad p 1 :: load_events (p + 1) n).
    cbn [app]. rewrite Nat2Z.inj_succ.
    replace (p + 1 + Z.of_nat n) with (p + Z.succ (Z.of_nat n)) by lia.
    reflexivity.
Qed.

(** X12.  [fnv1a_hash] follows the FNV-1a recurrence: on length 0 it
    returns the offset basis without a dereference; below 256 bytes, one
    more byte of input xors that byte in and multiplies by the prime, with
    one more dereference; from 256 bytes on, more input changes neither
    the value nor the bytes read. *)
Theorem fnv1a_hash_recurrence (S : Type) (pkt : packet) (data len : Z)
    (s : S) :
  0 <= data -> 0 <= len ->
  data + Z.min (len + 1) 256 <= pkt_data_end pkt ->
  TcCache.fnv1a_hash pkt data 0 s = Some (FNV_OFFSET, s, [])
  /\ exists h h' t t',
       TcCache.fnv1a_hash pkt data len s = Some (h, s, t)
       /\ TcCache.fnv1a_hash pkt data (len + 1) s = Some (h', s, t')
       /\ (len < 256 ->
           h' = u64 (Z.lxor h (byte_at pkt (data + len)) * FNV_PRIME)
           /\ t' = t ++ [EvLoad (data + len) 1])
       /\ (256 <= len -> h' = h /\ t' = t).
Proof.
  intros Hd Hl Hb. split; [reflexivity|].
  rewrite !fnv1a_hash_run by lia.
  do 4 eexists. split; [reflexivity|]. split; [reflexivity|]. split.
  - intros Hlt. split.
    + rewrite !fnv1a_fold_short
        by (unfold slice; rewrite length_firstn; lia).
      rewrite slice_snoc by lia. rewrite fold_left_app. reflexivity.
    + rewrite !Z.min_l by lia.
      replace (Z.to_nat (len + 1)) with (Datatypes.S (Z.to_nat len)) by lia.
      rewrite load_events_snoc. do 3 f_equal. lia.
  - intros Hge. split.
    + unfold fnv1a_fold. rewrite !slice_cap by lia. reflexivity.
    + rewrite !Z.min_r by lia. reflexivity.
Qed.

Lemma fnv1a_hash_recurrence_witness :
  exists h h' t t',
    TcCache.fnv1a_hash (map byte_of [97; 98]) 0 1 tt = Some (h, tt, t)
    /\ TcCache.fnv1a_hash (map byte_of [97; 98]) 0 2 tt = Some (h', tt, t')
    /\ h = 0xaf63dc4c8601ec8c
    /\ h' = u64 (Z.lxor h 98 * FNV_PRIME).
Proof.
  destruct (fnv1a_hash_recurrence unit (map byte_of [97; 98]) 0 1 tt)
    as (_ & h & h' & t & t' & H1 & H2 & Hstep & _);
    [lia | lia | vm_compute; discriminate |].
  exists h, h', t, t'. split; [exact H1|]. split; [exact H2|].
  split.
  - vm_compute in H1. injection H1 as <- _. reflexivity.
  - apply Hstep. lia.
Defined.

(** X13.  [parse_ip] never dereferences outside the buffer: it reads the
    version field only after the comparison for the whole 20-byte header,
    and returns the pointer 14 bytes after the Ethernet header exactly when
    the header fits and the version is 4. *)
Theorem parse_ip_contract (pkt : packet) (eth : Z) (s : XdpRouter.world) :
  0 <= eth ->
  exists r t,
    XdpRouter.parse_ip pkt eth s = Some (r, s, t)
    /\ loads_within pkt t = true
    /\ guarded 0 t = true
    /\ (eth + 34 <= pkt_data_end pkt
        /\ version_of (byte_at pkt (eth + 14)) = 4 ->
        r = Some (eth + 14))
    /\ (pkt_data_end pkt < eth + 34
        \/ version_of (byte_at pkt (eth + 14)) <> 4 ->
        r = None).
Proof.
  intros Heth.
  cbv beta iota zeta delta
    [XdpRouter.parse_ip bind gt_end emit ret load8 deref pkt_data
     sizeof_ethhdr sizeof_iphdr].
  destruct (Z.gtb_spec (eth + 14 + 20) (pkt_data_end pkt)) as [Hgt|Hle].
  { exists None, [EvGtEnd (eth + 14 + 20) true].
    split; [reflexivity|]. split; [reflexivity|]. split; [reflexivity|].
    split; [intros [H _]; lia | reflexivity]. }
  replace ((0 <=? eth + 14) && (eth + 14 + 1 <=? pkt_data_end pkt))
    with true by lia.
  cbv beta iota.
  destruct (Z.eqb_spec (version_of (byte_at pkt (eth + 14))) 4) as [E|E];
    cbn [negb app].
  { exists (Some (eth + 14)),
           [EvGtEnd (eth + 14 + 20) false; EvLoad (eth + 14) 1].
    split; [reflexivity|].
    unfold loads_within. cbn [forallb guarded].
    split; [lia|]. split; [lia|].
    split; [reflexivity|]. intros [H|H]; [lia|contradiction]. }
  exists None, [EvGtEnd (eth + 14 + 20) false; EvLoad (eth + 14) 1].
  split; [reflexivity|].
  unfold loads_within. cbn [forallb guarded].
  split; [lia|]. split; [lia|].
  split; [intros [_ H]; contradiction | reflexivity].
Qed.

Lemma parse_ip_contract_witness :
  exists t,
    XdpRouter.parse_ip plain_segment 0 (xdp_world None zero_stats)
    = Some (Some 14, xdp_world None zero_stats, t).
Proof.
  destruct (parse_ip_contract plain_segment 0 (xdp_world None zero_stats))
    as (r & t & Hr & _ & _ & Hok & _); [lia|].
  exists t. rewrite Hr. rewrite Hok; [reflexivity|].
  split; [vm_compute; discriminate|reflexivity].
Defined.

(** X14.  [parse_tcp] reads the header length before any comparison, so
    it relies on its caller for the IP header being inside the buffer:
    then it returns the pointer [ip + 4 * IHL], which lies between [ip] and
    [ip + 60] (a length below 5 words is not rejected), exactly when the
    20 bytes from there fit; called with a pointer at or past the end of
    the buffer it dereferences out of bounds. *)
Theorem parse_tcp_contract (pkt : packet) (ip : Z) (s : XdpRouter.world) :
  (0 <= ip -> ip + 20 <= pkt_data_end pkt ->
   let tcp := ip + ihl_of (byte_at pkt ip) * 4 in
   ip <= tcp <= ip + 60
   /\ XdpRouter.parse_tcp pkt ip s =
      Some (if tcp + 20 <=? pkt_data_end pkt then Some tcp else None,
            s,
            [EvLoad ip 1;
             EvGtEnd (tcp + 20) (negb (tcp + 20 <=? pkt_data_end pkt))]))
  /\ (pkt_data_end pkt <= ip -> XdpRouter.parse_tcp pkt ip s = None).
Proof.
  cbv beta iota zeta delta
    [XdpRouter.parse_tcp bind gt_end emit ret load8 deref pkt_data
     sizeof_tcphdr].
  split.
  - intros Hip Hfit.
    pose proof (ihl_of_range (byte_at pkt ip) (proj1 (byte_at_range pkt ip))).
    split; [lia|].
    replace ((0 <=? ip) && (ip + 1 <=? pkt_data_end pkt)) with true by lia.
    cbv beta iota.
    destruct (Z.leb_spec (ip + ihl_of (byte_at pkt ip) * 4 + 20)
                (pkt_data_end pkt)) as [Hle|Hgt].
    + replace (ip + ihl_of (byte_at pkt ip) * 4 + 20 >? pkt_data_end pkt)
        with false by lia.
      reflexivity.
    + replace (ip + ihl_of (byte_at pkt ip) * 4 + 20 >? pkt_data_end pkt)
        with true by lia.
      reflexivity.
  - intros Hout.
    replace ((0 <=? ip) && (ip + 1 <=? pkt_data_end pkt)) with false by lia.
    reflexivity.
Qed.

Lemma parse_tcp_contract_witness :
  XdpRouter.parse_tcp plain_segment 14 (xdp_world None zero_stats)
  = Some (Some 34, xdp_world None zero_stats,
          [EvLoad 14 1; EvGtEnd 54 false])
  /\ XdpRouter.parse_tcp plain_segment 54 (xdp_world None zero_stats) = None.
Proof.
  destruct (parse_tcp_contract plain_segment 14 (xdp_world None zero_stats))
    as (Hok & _).
  destruct (parse_tcp_contract plain_segment 54 (xdp_world None zero_stats))
    as (_ & Hbad).
  split.
  - destruct Hok as (_ & Hr); [lia | vm_compute; discriminate |].
    rewrite Hr. reflexivity.
  - apply Hbad. vm_compute. discriminate.
Defined.

(** X15.  [parse_http_start] reads the data offset before any
    comparison, so it relies on its caller for the TCP header being inside
    the buffer: then the payload start is [tcp + 4 * doff], between [tcp]
    and [tcp + 60], and the 4-byte token is read only after the comparison
    showed it inside the buffer; called with a TCP pointer whose byte 12
    is past the end it dereferences out of bounds. *)
Theorem parse_http_start_contract (bo : byte_order) (pkt : packet) (tcp : Z)
    (s : TcCache.world) :
  (0 <= tcp -> tcp + 20 <= pkt_data_end pkt ->
   let start := tcp + doff_of (byte_at pkt (tcp + 12)) * 4 in
   tcp <= start <= tcp + 60
   /\ TcCache.parse_http_start bo pkt tcp s =
      if start + 4 <=? pkt_data_end pkt
      then Some (Some (start, read32 bo pkt start), s,
                 [EvLoad (tcp + 12) 1; EvGtEnd (start + 4) false;
                  EvLoad start 4])
      else Some (None, s, [EvLoad (tcp + 12) 1; EvGtEnd (start + 4) true]))
  /\ (pkt_data_end pkt <= tcp + 12 ->
      TcCache.parse_http_start bo pkt tcp s = None).
Proof.
  cbv beta iota zeta delta
    [TcCache.parse_http_start bind gt_end emit ret load8 load32 deref
     pkt_data tcphdr_doff_byte].
  split.
  - intros Htcp Hfit.
    pose proof (doff_of_range _ (byte_at_range pkt (tcp + 12))).
    split; [lia|].
    replace ((0 <=? tcp + 12) && (tcp + 12 + 1 <=? pkt_data_end pkt))
      with true by lia.
    replace (0 <=? tcp + doff_of (byte_at pkt (tcp + 12)) * 4)
      with true by lia.
    cbv beta iota. cbn [andb].
    destruct (Z.leb_spec (tcp + doff_of (byte_at pkt (tcp + 12)) * 4 + 4)
                (pkt_data_end pkt)) as [Hle|Hgt].
    + replace (tcp + doff_of (byte_at pkt (tcp + 12)) * 4 + 4
               >? pkt_data_end pkt) with false by lia.
      reflexivity.
    + replace (tcp + doff_of (byte_at pkt (tcp + 12)) * 4 + 4
               >? pkt_data_end pkt) with true by lia.
      reflexivity.
  - intros Hout.
    replace ((0 <=? tcp + 12) && (tcp + 12 + 1 <=? pkt_data_end pkt))
      with false by lia.
    reflexivity.
Qed.

Lemma parse_http_start_contract_witness :
  TcCache.parse_http_start BigEndian (get_ab_packet BigEndian) 34
    (tc_world None 0)
  = Some (Some (54, HTTP_GET), tc_world None 0,
          [EvLoad 46 1; EvGtEnd 58 false; EvLoad 54 4])
  /\ TcCache.parse_http_start BigEndian plain_segment 42 (tc_world None 0)
     = None.
Proof.
  destruct (parse_http_start_contract BigEndian (get_ab_packet BigEndian) 34
              (tc_world None 0)) as (Hok & _).
  destruct (parse_http_start_contract BigEndian plain_segment 42
              (tc_world None 0)) as (_ & Hbad).
  split.
  - destruct Hok as (_ & Hr); [lia | vm_compute; discriminate |].
    rewrite Hr. reflexivity.
  - apply Hbad. vm_compute. discriminate.
Defined.
